(** * COVID-19 dashboard: the data pipeline of [app.py]

    A shallow embedding of [load_data], [calculate_growth_metrics] and
    [calculate_rates], the three functions of [app.py] that carry logic,
    together with the pandas operations they call.

    Conventions of the model.
    - Text is ASCII: a [string] is a sequence of code points below 128.
    - A column is a typed list of cells (pandas: a Series with a dtype), a
      table is the ordered list of its labelled columns (labels may repeat,
      as in a pandas column index).
    - Float64 cells are [NaN], the two infinities or a finite rational; the
      arithmetic on finite values is exact, the special values follow
      IEEE 754, and negative zero is not told apart from zero.
    - There is one missing value, [NaN]: [fillna] fills it, as it does in a
      float column.  (A pandas version that keeps the NaN of 0/0 apart from
      the masked <NA> of a nullable column leaves that NaN unfilled; the
      model follows the reading in which NaN is missing.)
    - Int64 cells are integers or <NA>; the arithmetic wraps at 64 bits and a
      cast into Int64 fails outside the range.
    - Python objects that are mutated live in a heap and are passed by
      reference. *)

From Stdlib Require Import ZArith QArith Lia List Ascii String Bool.
From Stdlib Require Import Sorting.Sorted Sorting.Permutation.
From Stdlib Require Import Lqa Qpower.
From stdpp Require Import gmap.
Import ListNotations.

Local Open Scope Z_scope.
Local Open Scope string_scope.

(** ** Characters and the two regular expressions *)

Module Text.

(** [str.isspace] on the ASCII range: TAB, LF, VT, FF, CR, FS, GS, RS, US and
    the space. *)
Definition is_space (c : ascii) : bool :=
  let n := nat_of_ascii c in
  ((9 <=? n)%nat && (n <=? 13)%nat) || ((28 <=? n)%nat && (n <=? 32)%nat).

Definition is_digit (c : ascii) : bool :=
  let n := nat_of_ascii c in (48 <=? n)%nat && (n <=? 57)%nat.

Definition is_lower (c : ascii) : bool :=
  let n := nat_of_ascii c in (97 <=? n)%nat && (n <=? 122)%nat.

Definition is_upper (c : ascii) : bool :=
  let n := nat_of_ascii c in (65 <=? n)%nat && (n <=? 90)%nat.

(** The character class [[a-z0-9]]. *)
Definition is_word (c : ascii) : bool := is_lower c || is_digit c.

Definition underscore : ascii := "_"%char.

(** [str.lower] on one character. *)
Definition lower_char (c : ascii) : ascii :=
  if is_upper c then ascii_of_nat (nat_of_ascii c + 32) else c.

Fixpoint lower (s : string) : string :=
  match s with
  | EmptyString => EmptyString
  | String c t => String (lower_char c) (lower t)
  end.

Fixpoint lstrip (s : string) : string :=
  match s with
  | EmptyString => EmptyString
  | String c t => if is_space c then lstrip t else s
  end.

Fixpoint rstrip (s : string) : string :=
  match s with
  | EmptyString => EmptyString
  | String c t =>
      match rstrip t with
      | EmptyString => if is_space c then EmptyString else String c EmptyString
      | r => String c r
      end
  end.

(** [str.strip()] *)
Definition strip (s : string) : string := rstrip (lstrip s).

(** [re.sub("[^a-z0-9]+", "_", s)]: every maximal run of characters outside
    [[a-z0-9]] becomes one underscore.  [in_run] tells that the previous
    character was part of the run being replaced. *)
Fixpoint sub_runs (in_run : bool) (s : string) : string :=
  match s with
  | EmptyString => EmptyString
  | String c t =>
      if is_word c then String c (sub_runs false t)
      else if in_run then sub_runs true t
      else String underscore (sub_runs true t)
  end.

(** [re.sub("[^0-9]", "", s)]: delete every character that is not a digit. *)
Fixpoint keep_digits (s : string) : string :=
  match s with
  | EmptyString => EmptyString
  | String c t => if is_digit c then String c (keep_digits t) else keep_digits t
  end.

Definition is_nonzero_digit (c : ascii) : bool :=
  let n := nat_of_ascii c in (49 <=? n)%nat && (n <=? 57)%nat.

Fixpoint all_chars (p : ascii -> bool) (s : string) : bool :=
  match s with
  | EmptyString => true
  | String c t => p c && all_chars p t
  end.

Fixpoint has_char (p : ascii -> bool) (s : string) : bool :=
  match s with
  | EmptyString => false
  | String c t => p c || has_char p t
  end.

End Text.

(** ** Column labels: lines 28-32 of [load_data] *)

(** [df.columns.str.strip().str.lower().str.replace("[^a-z0-9]+", "_", regex=True)]
    on one label. *)
Definition normalize (s : string) : string :=
  Text.sub_runs false (Text.lower (Text.strip s)).

(** Shape of a normalized label: word characters and isolated underscores.
    [after_us] tells that the previous character was an underscore. *)
Fixpoint clean_label (after_us : bool) (s : string) : bool :=
  match s with
  | EmptyString => true
  | String c t =>
      if Text.is_word c then clean_label false t
      else Ascii.eqb c Text.underscore && negb after_us && clean_label true t
  end.

(** ** Float64 values *)

Module Float64.

Inductive float64 : Type :=
| NaN
| PInf
| NInf
| Fin (q : Q).

Definition of_Z (z : Z) : float64 := Fin (inject_Z z).

Definition zero : float64 := Fin 0.

(** Sign of a rational: its denominator is positive. *)
Definition Qsign (q : Q) : comparison := (Qnum q ?= 0)%Z.

Definition neg (a : float64) : float64 :=
  match a with
  | NaN => NaN
  | PInf => NInf
  | NInf => PInf
  | Fin q => Fin (Qred (- q))
  end.

Definition add (a b : float64) : float64 :=
  match a, b with
  | NaN, _ | _, NaN => NaN
  | PInf, NInf | NInf, PInf => NaN
  | PInf, _ | _, PInf => PInf
  | NInf, _ | _, NInf => NInf
  | Fin x, Fin y => Fin (Qred (x + y))
  end.

Definition sub (a b : float64) : float64 := add a (neg b).

Definition mul (a b : float64) : float64 :=
  match a, b with
  | NaN, _ | _, NaN => NaN
  | Fin x, Fin y => Fin (Qred (x * y))
  | PInf, PInf | NInf, NInf => PInf
  | PInf, NInf | NInf, PInf => NInf
  | PInf, Fin y | Fin y, PInf =>
      match Qsign y with Eq => NaN | Gt => PInf | Lt => NInf end
  | NInf, Fin y | Fin y, NInf =>
      match Qsign y with Eq => NaN | Gt => NInf | Lt => PInf end
  end.

(** IEEE 754 division: a finite value over zero is an infinity of its sign,
    zero over zero is NaN, a finite value over an infinity is zero. *)
Definition div (a b : float64) : float64 :=
  match a, b with
  | NaN, _ | _, NaN => NaN
  | Fin x, Fin y =>
      match Qsign y with
      | Eq => match Qsign x with Eq => NaN | Gt => PInf | Lt => NInf end
      | _ => Fin (Qred (x / y))
      end
  | Fin _, (PInf | NInf) => Fin 0
  | PInf, Fin y => match Qsign y with Lt => NInf | _ => PInf end
  | NInf, Fin y => match Qsign y with Lt => PInf | _ => NInf end
  | (PInf | NInf), (PInf | NInf) => NaN
  end.

Definition is_inf (a : float64) : bool :=
  match a with PInf | NInf => true | _ => false end.

Definition is_nan (a : float64) : bool :=
  match a with NaN => true | _ => false end.



Section Log.

(** The natural logarithm on the positive finite values other than 1, as
    the platform's [log] rounds it. *)
Variable ln : Q -> Q.

(** [np.log]: NaN below zero, minus infinity at zero, zero at one. *)
Definition log (a : float64) : float64 :=
  match a with
  | NaN => NaN
  | PInf => PInf
  | NInf => NaN
  | Fin q =>
      match Qsign q with
      | Lt => NaN
      | Eq => NInf
      | Gt => if Qeq_bool q 1 then Fin 0 else Fin (Qred (ln q))
      end
  end.

End Log.

End Float64.

Export Float64(float64, NaN, PInf, NInf, Fin).

(** ** Series and tables *)

Inductive Series : Type :=
| SObj (l : list string)          (* object dtype: each cell by its string form *)
| SDate (l : list (option Z))     (* datetime64[ns]: [None] is NaT *)
| SInt (l : list (option Z))      (* Int64: [None] is <NA> *)
| SFloat (l : list float64).      (* Float64 *)

(** A table: the labelled columns in their order.  All the columns of a
    table built by pandas have the same length. *)
Definition DataFrame : Type := list (string * Series).

Inductive exn : Type :=
| FileError                       (* read_json could not read or parse the file *)
| KeyError (k : string)
| ValueError
| TypeError
| AttributeError
| ReferenceError.

(** What [df[k]] evaluates to: a Series when one column carries the label, a
    DataFrame when several do. *)
Inductive item : Type :=
| Column (s : Series)
| Frame (cols : list Series).

Definition columns (df : DataFrame) : list string := map fst df.

(** [k in df.columns] *)
Definition has_column (df : DataFrame) (k : string) : bool :=
  existsb (String.eqb k) (columns df).

Definition select (df : DataFrame) (k : string) : list Series :=
  map snd (List.filter (fun p => String.eqb k (fst p)) df).

(** [df[k]] *)
Definition getitem (df : DataFrame) (k : string) : exn + item :=
  match select df k with
  | [] => inl (KeyError k)
  | [s] => inr (Column s)
  | cols => inr (Frame cols)
  end.

(** [df[k] = s]: every column labelled [k] is replaced; a new label is
    appended. *)
Definition assign (df : DataFrame) (k : string) (s : Series) : DataFrame :=
  if has_column df k
  then map (fun p => if String.eqb k (fst p) then (fst p, s) else p) df
  else (df ++ [(k, s)])%list.

(** [df.columns = f(df.columns)] *)
Definition set_columns (f : string -> string) (df : DataFrame) : DataFrame :=
  map (fun p => (f (fst p), snd p)) df.

(** The same selection or reordering of rows applied to a column of any
    dtype. *)
Definition on_rows (f : forall A : Type, list A -> list A) (s : Series) : Series :=
  match s with
  | SObj l => SObj (f _ l)
  | SDate l => SDate (f _ l)
  | SInt l => SInt (f _ l)
  | SFloat l => SFloat (f _ l)
  end.

(** Rows kept by a boolean mask. *)
Fixpoint take_mask {A : Type} (m : list bool) (l : list A) : list A :=
  match m, l with
  | b :: m', x :: l' => if b then x :: take_mask m' l' else take_mask m' l'
  | _, _ => []
  end.

Definition present {A : Type} (o : option A) : bool :=
  match o with Some _ => true | None => false end.

(** Whether a cell holds a value.  A cell of an object column is a text. *)
Definition notna (s : Series) : list bool :=
  match s with
  | SObj l => map (fun _ => true) l
  | SDate l | SInt l => map present l
  | SFloat l => map (fun x => negb (Float64.is_nan x)) l
  end.

Fixpoint all_notna (n : nat) (cols : list Series) : list bool :=
  match cols with
  | [] => repeat true n
  | s :: t => map (fun p => andb (fst p) (snd p)) (combine (notna s) (all_notna n t))
  end.

Definition height (s : Series) : nat :=
  match s with
  | SObj l => length l
  | SDate l | SInt l => length l
  | SFloat l => length l
  end.

Definition rows_of (cols : list Series) : nat :=
  match cols with
  | [] => 0%nat
  | s :: _ => height s
  end.

(** [df.dropna(subset=[k])]: the rows in which every column labelled [k]
    holds a value. *)
Definition dropna (df : DataFrame) (k : string) : exn + DataFrame :=
  match select df k with
  | [] => inl (KeyError k)
  | cols =>
      let mask := all_notna (rows_of cols) cols in
      inr (map (fun p => (fst p, on_rows (fun A => @take_mask A mask) (snd p))) df)
  end.

(** Ascending order with the missing value last ([na_position="last"]). *)
Definition na_last_leb (a b : option Z) : bool :=
  match a, b with
  | _, None => true
  | None, Some _ => false
  | Some x, Some y => Z.leb x y
  end.

Definition float_leb (a b : float64) : bool :=
  match a, b with
  | _, NaN => true
  | NaN, _ => false
  | NInf, _ => true
  | _, PInf => true
  | PInf, _ => false
  | _, NInf => false
  | Fin x, Fin y => Qle_bool x y
  end.

Section Sorting.

Context {K A : Type} (leb : K -> K -> bool).

Fixpoint insert_row (x : K * A) (l : list (K * A)) : list (K * A) :=
  match l with
  | [] => [x]
  | y :: t => if leb (fst x) (fst y) then x :: l else y :: insert_row x t
  end.

(** Rows paired with their key, sorted by key.  Rows with equal keys keep
    their order here; pandas' default sort does not promise that, and
    nothing below depends on it. *)
Fixpoint sort_rows (l : list (K * A)) : list (K * A) :=
  match l with
  | [] => []
  | x :: t => insert_row x (sort_rows t)
  end.

End Sorting.

Definition order_by {K : Type} (leb : K -> K -> bool) (keys : list K)
  (A : Type) (l : list A) : list A :=
  map snd (sort_rows leb (combine keys l)).

(** [df.sort_values(k)] *)
Definition sort_values (df : DataFrame) (k : string) : exn + DataFrame :=
  match getitem df k with
  | inl e => inl e
  | inr (Frame _) => inl ValueError
  | inr (Column s) =>
      let reorder : forall A : Type, list A -> list A :=
        match s with
        | SObj l => order_by String.leb l
        | SDate l | SInt l => order_by na_last_leb l
        | SFloat l => order_by float_leb l
        end in
      inr (map (fun p => (fst p, on_rows reorder (snd p))) df)
  end.

(** The error monad of a [try] block. *)
#[global] Instance exn_ret : MRet (sum exn) := fun _ x => inr x.
#[global] Instance exn_bind : MBind (sum exn) := fun _ _ f m =>
  match m with
  | inl e => inl e
  | inr x => f x
  end.

(** ** [load_data] *)

Definition column_mapping : list (string * string) :=
  [ ("totalcases", "total_confirmed_cases");
    ("confirmed", "total_confirmed_cases");
    ("deaths", "total_deaths");
    ("recovered", "total_recovered");
    ("active", "active_cases");
    ("new_cases", "daily_confirmed_cases");
    ("new_deaths", "daily_deaths") ].

Definition numeric_cols : list string :=
  [ "total_confirmed_cases"; "total_deaths"; "total_recovered";
    "active_cases"; "daily_confirmed_cases"; "daily_deaths" ].

Fixpoint dict_get (d : list (string * string)) (k : string) : option string :=
  match d with
  | [] => None
  | (k', v) :: t => if String.eqb k k' then Some v else dict_get t k
  end.

(** What [rename(columns=column_mapping)] does to one label. *)
Definition rename_label (k : string) : string :=
  match dict_get column_mapping k with
  | Some v => v
  | None => k
  end.

Definition INT64_MIN : Z := - 2 ^ 63.
Definition INT64_MAX : Z := 2 ^ 63 - 1.

Definition digit_value (c : ascii) : Z := Z.of_nat (nat_of_ascii c) - 48.

Fixpoint decimal_from (acc : Z) (s : string) : Z :=
  match s with
  | EmptyString => acc
  | String c t => decimal_from (10 * acc + digit_value c) t
  end.

(** [pd.to_numeric(..., errors="coerce")] on a cell made of decimal digits,
    which is what the substitution leaves: the empty text is not a number
    (NaN), any other is read in base ten.  (A column with an empty cell
    goes through float64 on its way to Int64, which is exact below 2^53;
    every cell is read exactly here.) *)
Definition to_numeric (s : string) : option Z :=
  match s with
  | EmptyString => None
  | _ => Some (decimal_from 0 s)
  end.

(** [.fillna(0)] on one cell. *)
Definition fillna_0 (o : option Z) : Z :=
  match o with
  | Some z => z
  | None => 0
  end.

(** One cell through line 58-61: strip the non-digits, parse, fill. *)
Definition coerce_cell (s : string) : Z :=
  fillna_0 (to_numeric (Text.keep_digits s)).

(** [.astype("Int64")]: a value outside the 64-bit range cannot be cast. *)
Definition astype_Int64 (l : list Z) : exn + Series :=
  if forallb (fun z => Z.leb INT64_MIN z && Z.leb z INT64_MAX) l
  then inr (SInt (map Some l))
  else inl TypeError.

(** The instant a Float64 cell denotes, in nanoseconds since the epoch. *)
Definition float_instant (x : float64) : option Z :=
  match x with
  | Fin q => Some (Z.quot (Qnum q) (Zpos (Qden q)))
  | _ => None
  end.

(** What [load_data] hands back: the table, or [None] after one of its two
    [st.error] messages. *)
Inductive loaded : Type :=
| Table (df : DataFrame)
| DateColumnNotFound              (* "Date column not found in dataset!" *)
| DataLoadingFailed (e : exn).    (* "Data loading failed: ..." *)

Section Loader.

(** The mixed-format date parser on the text of one cell: its instant in
    nanoseconds since the epoch, or [None] when the text is no date. *)
Variable parse_date : string -> option Z.

(** The text pandas prints for the cells of a column that is not of object
    dtype. *)
Variable render : Series -> list string.

(** [s.astype(str)] *)
Definition astype_str (s : Series) : list string :=
  match s with
  | SObj l => l
  | _ => render s
  end.

(** [pd.to_datetime(s, format="mixed", errors="coerce")] *)
Definition to_datetime (it : item) : exn + Series :=
  match it with
  | Frame _ => inl ValueError
  | Column (SObj l) => inr (SDate (map parse_date l))
  | Column (SDate l) => inr (SDate l)
  | Column (SInt l) => inr (SDate l)
  | Column (SFloat l) => inr (SDate (map float_instant l))
  end.

(** Lines 46-47. *)
Definition parse_dates (df : DataFrame) : exn + DataFrame :=
  it ← getitem df "date";
  dates ← to_datetime it;
  let df := assign df "date" dates in
  df ← dropna df "date";
  sort_values df "date".

(** The body of the loop of lines 56-61 for one label.  A DataFrame, which
    is what [df[col]] is when the label is carried twice, has no [.str]. *)
Definition clean_column (df : DataFrame) (col : string) : exn + DataFrame :=
  if has_column df col then
    it ← getitem df col;
    match it with
    | Frame _ => inl AttributeError
    | Column s =>
        counts ← astype_Int64 (map coerce_cell (astype_str s));
        mret (assign df col counts)
    end
  else mret df.

Fixpoint clean_columns (cols : list string) (df : DataFrame) : exn + DataFrame :=
  match cols with
  | [] => mret df
  | col :: rest => df ← clean_column df col; clean_columns rest df
  end.

(** [load_data()], with the outcome of [pd.read_json(DATA_FILE)] as its
    input: the parsed table, or [None] when the call raised. *)
Definition load_data (file : option DataFrame) : loaded :=
  match file with
  | None => DataLoadingFailed FileError
  | Some df =>
      let df := set_columns normalize df in
      let df := set_columns rename_label df in
      if has_column df "date" then
        match parse_dates df ≫= clean_columns numeric_cols with
        | inr df => Table df
        | inl e => DataLoadingFailed e
        end
      else DateColumnNotFound
  end.

End Loader.

(** ** Numeric columns *)

(** A column the arithmetic of the metric functions applies to. *)
Inductive numeric : Type :=
| Ints (l : list (option Z))      (* Int64 *)
| Floats (l : list float64).      (* Float64 *)

Definition numeric_of (s : Series) : exn + numeric :=
  match s with
  | SInt l => inr (Ints l)
  | SFloat l => inr (Floats l)
  | SObj _ | SDate _ => inl TypeError
  end.

Definition series_of (n : numeric) : Series :=
  match n with
  | Ints l => SInt l
  | Floats l => SFloat l
  end.

(** 64-bit two's complement wrap-around. *)
Definition wrap64 (z : Z) : Z := (z + 2 ^ 63) mod 2 ^ 64 - 2 ^ 63.

Definition int_op (f : Z -> Z -> Z) (a b : option Z) : option Z :=
  match a, b with
  | Some x, Some y => Some (wrap64 (f x y))
  | _, _ => None
  end.

Definition float_of_int (a : option Z) : float64 :=
  match a with
  | Some z => Float64.of_Z z
  | None => NaN
  end.

Definition as_floats (n : numeric) : list float64 :=
  match n with
  | Ints l => map float_of_int l
  | Floats l => l
  end.

(** [s.shift(1)]: every cell moves one row down, the first row is missing. *)
Definition shift {A : Type} (na : A) (l : list A) : list A :=
  take (length l) (na :: l).

(** [s.diff()] *)
Definition diff (n : numeric) : numeric :=
  match n with
  | Ints l => Ints (zip_with (int_op Z.sub) l (shift None l))
  | Floats l => Floats (zip_with Float64.sub l (shift NaN l))
  end.

(** [s.pct_change()], that is [s / s.shift(1) - 1].  (The filling of missing
    cells that older versions do first changes nothing on a column without
    missing cells.) *)
Definition pct_change (n : numeric) : numeric :=
  let l := as_floats n in
  Floats (zip_with (fun x p => Float64.sub (Float64.div x p) (Float64.of_Z 1))
            l (shift NaN l)).

(** [s.fillna(0)] *)
Definition fillna0 (n : numeric) : numeric :=
  match n with
  | Ints l => Ints (map (fun a => Some (fillna_0 a)) l)
  | Floats l => Floats (map (fun x => if Float64.is_nan x then Float64.zero else x) l)
  end.

(** [s * k] for a Python integer [k] *)
Definition mul_int (n : numeric) (k : Z) : numeric :=
  match n with
  | Ints l => Ints (map (fun a => int_op Z.mul a (Some k)) l)
  | Floats l => Floats (map (fun x => Float64.mul x (Float64.of_Z k)) l)
  end.

(** [k + s] for a Python integer [k] *)
Definition radd_int (k : Z) (n : numeric) : numeric :=
  match n with
  | Ints l => Ints (map (fun a => int_op Z.add (Some k) a) l)
  | Floats l => Floats (map (fun x => Float64.add (Float64.of_Z k) x) l)
  end.

(** [x / s] for a float [x] *)
Definition rdiv_float (x : float64) (n : numeric) : numeric :=
  Floats (map (Float64.div x) (as_floats n)).

(** [a / b] *)
Definition truediv (a b : numeric) : numeric :=
  Floats (zip_with Float64.div (as_floats a) (as_floats b)).

(** [s.replace([np.inf, -np.inf], 0)] *)
Definition replace_inf (n : numeric) : numeric :=
  match n with
  | Ints l => Ints l
  | Floats l => Floats (map (fun x => if Float64.is_inf x then Float64.zero else x) l)
  end.

(** ** The heap, and the two metric functions *)

Definition ref : Type := nat.

Abbreviation heap := (gmap ref DataFrame).

(** A Python computation: it reads and writes the heap and ends in a value
    or in an exception. *)
Definition Py (A : Type) : Type := heap -> (exn + A) * heap.

#[global] Instance py_ret : MRet Py := fun _ x h => (inr x, h).
#[global] Instance py_bind : MBind Py := fun _ _ f m h =>
  match m h with
  | (inl e, h') => (inl e, h')
  | (inr x, h') => f x h'
  end.

(** [df[k]] as the operand of an arithmetic expression.  Several columns
    under one label make a DataFrame, which the assignment of the result to
    a single label refuses. *)
Definition py_getitem (df : ref) (k : string) : Py numeric := fun h =>
  match h !! df with
  | None => (inl ReferenceError, h)
  | Some t =>
      (it ← getitem t k;
       match it with
       | Column s => numeric_of s
       | Frame _ => inl ValueError
       end, h)
  end.

(** [df[k] = n]: the table [df] refers to is updated in place. *)
Definition py_setitem (df : ref) (k : string) (n : numeric) : Py unit := fun h =>
  match h !! df with
  | None => (inl ReferenceError, h)
  | Some t => (inr tt, <[df := assign t k (series_of n)]> h)
  end.

Section Metrics.

Variable ln : Q -> Q.

(** [np.log(s)] *)
Definition np_log (n : numeric) : numeric :=
  Floats (map (Float64.log ln) (as_floats n)).

(** [np.log(2)] *)
Definition log_2 : float64 := Float64.log ln (Float64.of_Z 2).

Definition calculate_growth_metrics (df : ref) : Py ref :=
  c ← py_getitem df "total_confirmed_cases";
  py_setitem df "daily_change" (fillna0 (diff c));;
  c ← py_getitem df "total_confirmed_cases";
  py_setitem df "growth_rate" (fillna0 (pct_change c));;
  g ← py_getitem df "growth_rate";
  py_setitem df "growth_rate_pct" (mul_int g 100);;
  g ← py_getitem df "growth_rate";
  py_setitem df "doubling_time_days" (rdiv_float log_2 (np_log (radd_int 1 g)));;
  d ← py_getitem df "doubling_time_days";
  py_setitem df "doubling_time_days" (fillna0 (replace_inf d));;
  mret df.

End Metrics.

Definition calculate_rates (df : ref) : Py ref :=
  d ← py_getitem df "total_deaths";
  c ← py_getitem df "total_confirmed_cases";
  py_setitem df "cfr" (truediv d c);;
  r ← py_getitem df "total_recovered";
  c ← py_getitem df "total_confirmed_cases";
  py_setitem df "recovery_rate" (truediv r c);;
  f ← py_getitem df "cfr";
  py_setitem df "cfr_pct" (mul_int f 100);;
  r ← py_getitem df "recovery_rate";
  py_setitem df "recovery_rate_pct" (mul_int r 100);;
  mret df.

(** ** Instances of the library functions, for running the model *)

Module Sample.

Definition digits_of (s : string) : option Z :=
  if Text.all_chars Text.is_digit s then to_numeric s else None.

Definition is_leap (y : Z) : bool :=
  ((y mod 4 =? 0) && negb (y mod 100 =? 0) || (y mod 400 =? 0))%Z.

Definition days_in_month (y m : Z) : Z :=
  (if m =? 2 then (if is_leap y then 29 else 28)
   else if (m =? 4) || (m =? 6) || (m =? 9) || (m =? 11) then 30
   else 31)%Z.

(** Days from 1970-01-01 to the given day of the proleptic Gregorian
    calendar. *)
Definition days_from_civil (y m d : Z) : Z :=
  (let y := if m <=? 2 then y - 1 else y in
   let era := y / 400 in
   let yoe := y - era * 400 in
   let mp := if m <=? 2 then m + 9 else m - 3 in
   let doy := (153 * mp + 2) / 5 + d - 1 in
   let doe := yoe * 365 + yoe / 4 - yoe / 100 + doy in
   era * 146097 + doe - 719468)%Z.

Definition ns_per_day : Z := 86400 * 10 ^ 9.

(** The dates written [YYYY-MM-DD], one of the formats the mixed parser
    reads. *)
Definition iso_date (s : string) : option Z :=
  match digits_of (substring 0 4 s), digits_of (substring 5 2 s),
        digits_of (substring 8 2 s) with
  | Some y, Some m, Some d =>
      if (String.length s =? 10)%nat
         && String.eqb (substring 4 1 s) "-" && String.eqb (substring 7 1 s) "-"
         && (1678 <=? y)%Z && (y <=? 2261)%Z
         && (1 <=? m)%Z && (m <=? 12)%Z && (1 <=? d)%Z && (d <=? days_in_month y m)%Z
      then Some (days_from_civil y m d * ns_per_day)
      else None
  | _, _, _ => None
  end.

(** No typed column is rendered when [load_data] starts from text cells;
    this instance prints none. *)
Definition render_blank (s : Series) : list string :=
  repeat EmptyString (height s).

(** First term of the series of the logarithm, [2 (q - 1) / (q + 1)]. *)
Definition ln_1 (q : Q) : Q := (2 * (q - 1) / (q + 1))%Q.

End Sample.


(** ** Vocabulary of the statements *)

(** A choice of rows, the same for every column: what it returns is made of
    cells of its argument. *)
Definition row_selection (f : forall A : Type, list A -> list A) : Prop :=
  forall (A : Type) (P : A -> Prop) (l : list A), Forall P l -> Forall P (f A l).

(** The table [load_data] works on once the labels are normalized and
    renamed (lines 28-43). *)
Definition relabel (raw : DataFrame) : DataFrame :=
  set_columns rename_label (set_columns normalize raw).

Definition in_int64 (z : Z) : Prop := INT64_MIN <= z <= INT64_MAX.

(** The labels the two metric functions write. *)
Definition growth_columns : list string :=
  [ "daily_change"; "growth_rate"; "growth_rate_pct"; "doubling_time_days" ].

Definition rate_columns : list string :=
  [ "cfr"; "recovery_rate"; "cfr_pct"; "recovery_rate_pct" ].

(** No label of [ks] is carried by two columns of [t]. *)
Definition at_most_once (t : DataFrame) (ks : list string) : Prop :=
  forall k, In k ks -> (length (select t k) <= 1)%nat.

(** A count column as [load_data] leaves it: Int64, no missing cell, no
    negative value. *)
Definition counts (t : DataFrame) (k : string) (zs : list Z) : Prop :=
  select t k = [SInt (map Some zs)] /\ Forall (fun z => 0 <= z) zs.

(** One cell of [growth_rate], from the cell of the count column and the
    cell of the row before. *)
Definition growth_cell (x p : float64) : float64 :=
  let r := Float64.sub (Float64.div x p) (Float64.of_Z 1) in
  if Float64.is_nan r then Float64.zero else r.



(** The heap [h'] differs from [h] at most in the table behind [df], and
    there at most under the labels [ks]: no other table is touched or made,
    and every column under another label is what it was. *)
Definition in_place (df : ref) (ks : list string) (h h' : heap) : Prop :=
  (forall r, r <> df -> h' !! r = h !! r)
  /\ (h !! df = None -> h' !! df = None)
  /\ (forall t, h !! df = Some t ->
        exists t', h' !! df = Some t'
                   /\ forall k, ~ In k ks -> select t' k = select t k).

(** Rows ordered by their key. *)
Definition key_le {K A : Type} (leb : K -> K -> bool) (x y : K * A) : Prop :=
  leb (fst x) (fst y) = true.

(** What the columns under a count label look like after the coercion
    loop, given the columns [before] it. *)
Definition coerced (render : Series -> list string)
  (before after : list Series) : Prop :=
  (before = [] /\ after = [])
  \/ exists s, before = [s]
       /\ after = [SInt (map (fun t => Some (coerce_cell t)) (astype_str render s))]
       /\ Forall in_int64 (map coerce_cell (astype_str render s)).

(** Every run of [m] works in place on [df], under the labels [ks]. *)
Definition footprint {A : Type} (df : ref) (ks : list string) (m : Py A) : Prop :=
  forall h res h', m h = (res, h') -> in_place df ks h h'.

(** The value a computation returns when it does not raise. *)
Definition returns {A : Type} (x : A) (m : Py A) : Prop :=
  forall h y h', m h = (inr y, h') -> y = x.

(** ** Rows of the loaded table *)

(** The rows at the positions [idx], in that order. *)
Definition take_rows (idx : list nat) (A : Type) (l : list A) : list A :=
  omap (fun i => l !! i) idx.

(** What line 47 does to one column, given the parsed dates: the rows whose
    date is missing go, the others are put in date order. *)
Definition kept_rows (dates : list (option Z)) (A : Type) (l : list A) : list A :=
  let mask := map present dates in
  order_by na_last_leb (take_mask mask dates) A (take_mask mask l).

(** A table as it is read from text: [n] rows, every cell a text. *)
Definition text_table (n : nat) (df : DataFrame) : Prop :=
  Forall (fun p => exists l, snd p = SObj l /\ length l = n) df.

(** What the coercion loop makes of a column of texts. *)
Definition coerce_series (s : Series) : Series :=
  match s with
  | SObj l => SInt (map (fun t => Some (coerce_cell t)) l)
  | _ => s
  end.

(** ** The tables the metric functions leave *)

(** The table behind the argument of [calculate_growth_metrics] when the
    function returns, from the table [t] it found there and the column [c]
    of confirmed cases. *)
Definition growth_table (ln : Q -> Q) (c : numeric) (t : DataFrame) : DataFrame :=
  let g := fillna0 (pct_change c) in
  let d := rdiv_float (log_2 ln) (np_log ln (radd_int 1 g)) in
  let t := assign t "daily_change" (series_of (fillna0 (diff c))) in
  let t := assign t "growth_rate" (series_of g) in
  let t := assign t "growth_rate_pct" (series_of (mul_int g 100)) in
  let t := assign t "doubling_time_days" (series_of d) in
  assign t "doubling_time_days" (series_of (fillna0 (replace_inf d))).

(** The same for [calculate_rates], from the columns of deaths, confirmed
    cases and recoveries. *)
Definition rates_table (d c r : numeric) (t : DataFrame) : DataFrame :=
  let t := assign t "cfr" (series_of (truediv d c)) in
  let t := assign t "recovery_rate" (series_of (truediv r c)) in
  let t := assign t "cfr_pct" (series_of (mul_int (truediv d c) 100)) in
  assign t "recovery_rate_pct" (series_of (mul_int (truediv r c) 100)).

(** The differences from one count to the next, starting after [p]. *)
Fixpoint deltas_from (p : Z) (zs : list Z) : list Z :=
  match zs with
  | [] => []
  | c :: rest => (c - p) :: deltas_from c rest
  end.

(** What [daily_change] holds for the counts [zs]. *)
Definition deltas (zs : list Z) : list Z :=
  match zs with
  | [] => []
  | z :: rest => 0 :: deltas_from z rest
  end.

Definition total (zs : list Z) : Z := fold_right Z.add 0 zs.

(** ** [main]: the date filter of the explorer, lines 173-177 *)











(** ** [main]: the projection of the advanced view, lines 286-290 *)

(** [s.tail(k)] *)
Definition tail {A : Type} (k : nat) (l : list A) : list A :=
  drop (length l - k) l.

Definition numeric_tail (k : nat) (n : numeric) : numeric :=
  match n with
  | Ints l => Ints (tail k l)
  | Floats l => Floats (tail k l)
  end.

Definition float_sum (l : list float64) : float64 :=
  fold_right Float64.add Float64.zero l.

(** [s.mean()]: the mean of the cells that hold a value, missing when no
    cell does. *)
Definition mean (n : numeric) : float64 :=
  match List.filter (fun x => negb (Float64.is_nan x)) (as_floats n) with
  | [] => NaN
  | l => Float64.div (float_sum l) (Float64.of_Z (Z.of_nat (length l)))
  end.

(** [df['daily_confirmed_cases'].tail(7).mean()] *)
Definition last_week_avg (c : numeric) : float64 := mean (numeric_tail 7 c).

(** [1.02 ** i] *)
Definition growth_factor (i : nat) : float64 :=
  Fin (Qred (Qpower (51 # 50) (Z.of_nat i))).

(** [[last_week_avg * (1.02)**i for i in range(projection_days)]] *)
Definition projected_cases (avg : float64) (projection_days : Z) : list float64 :=
  map (fun i => Float64.mul avg (growth_factor i)) (seq 0 (Z.to_nat projection_days)).

(** Lines 286 to 290 on the table behind [df]. *)
Definition scenario_planning (df : ref) (projection_days : Z) : Py (list float64) :=
  c ← py_getitem df "daily_confirmed_cases";
  py_setitem df "daily_confirmed_cases" (fillna0 c);;
  c ← py_getitem df "daily_confirmed_cases";
  mret (projected_cases (last_week_avg c) projection_days).

(** * Facts *)

Local Open Scope list_scope.
Local Open Scope Z_scope.

(** ** Column labels *)

Example normalize_total_cases : normalize "  Total Cases (#) " = "total_cases_".
Proof. reflexivity. Qed.

Example normalize_new_deaths : normalize "New-Deaths" = "new_deaths".
Proof. reflexivity. Qed.

Section NormalizeFacts.

Import Text.

Lemma is_word_not_space c : is_word c = true -> is_space c = false.
Proof.
  unfold is_word, is_lower, is_digit, is_space.
  generalize (nat_of_ascii c). intros n H.
  apply orb_true_iff in H as [H | H];
    apply andb_true_iff in H as [H1 H2];
    apply Nat.leb_le in H1; apply Nat.leb_le in H2;
    apply orb_false_iff; split; apply andb_false_iff;
    ((left; apply Nat.leb_gt; lia) || (right; apply Nat.leb_gt; lia)).
Qed.

Lemma is_word_not_upper c : is_word c = true -> is_upper c = false.
Proof.
  unfold is_word, is_lower, is_digit, is_upper.
  generalize (nat_of_ascii c). intros n H.
  apply orb_true_iff in H as [H | H];
    apply andb_true_iff in H as [H1 H2];
    apply Nat.leb_le in H1; apply Nat.leb_le in H2;
    apply andb_false_iff;
    ((left; apply Nat.leb_gt; lia) || (right; apply Nat.leb_gt; lia)).
Qed.

Lemma underscore_facts :
  is_space underscore = false /\ is_upper underscore = false
  /\ is_word underscore = false.
Proof. repeat split. Qed.

(** What a character of a clean label is. *)
Lemma clean_char c :
  is_word c = true \/ c = underscore ->
  is_space c = false /\ lower_char c = c.
Proof.
  intros [H | ->].
  - split; [now apply is_word_not_space|].
    unfold lower_char. now rewrite is_word_not_upper.
  - split; reflexivity.
Qed.

Lemma clean_label_head b c t :
  clean_label b (String c t) = true -> is_word c = true \/ c = underscore.
Proof.
  simpl. destruct (is_word c); [now left|].
  intros H. right.
  apply andb_true_iff in H as [H _]. apply andb_true_iff in H as [H _].
  now apply Ascii.eqb_eq in H.
Qed.

Lemma clean_label_tail b c t :
  clean_label b (String c t) = true -> exists b', clean_label b' t = true.
Proof.
  simpl. destruct (is_word c); [now exists false|].
  intros H. exists true. now apply andb_true_iff in H as [_ H].
Qed.

Lemma clean_label_weaken b s : clean_label b s = true -> clean_label false s = true.
Proof.
  destruct s as [|c t]; [reflexivity|]. simpl.
  destruct (is_word c); [tauto|].
  intros H. apply andb_true_iff in H as [H H2].
  apply andb_true_iff in H as [H _]. now rewrite H, H2.
Qed.

Lemma lstrip_clean b s : clean_label b s = true -> lstrip s = s.
Proof.
  destruct s as [|c t]; [reflexivity|]. intros H.
  apply clean_label_head, clean_char in H as [H _]. simpl. now rewrite H.
Qed.

Lemma rstrip_clean s : forall b, clean_label b s = true -> rstrip s = s.
Proof.
  induction s as [|c t IH]; intros b H; [reflexivity|].
  pose proof (clean_label_head _ _ _ H) as Hc.
  apply clean_char in Hc as [Hsp _].
  destruct (clean_label_tail _ _ _ H) as [b' Ht].
  simpl. rewrite (IH _ Ht), Hsp. now destruct t.
Qed.

Lemma lower_clean s : forall b, clean_label b s = true -> lower s = s.
Proof.
  induction s as [|c t IH]; intros b H; [reflexivity|].
  pose proof (clean_label_head _ _ _ H) as Hc.
  apply clean_char in Hc as [_ Hlo].
  destruct (clean_label_tail _ _ _ H) as [b' Ht].
  simpl. now rewrite Hlo, (IH _ Ht).
Qed.

(** On a clean label the substitution replaces each underscore by itself. *)
Lemma sub_runs_clean s : forall b, clean_label b s = true -> sub_runs b s = s.
Proof.
  induction s as [|c t IH]; intros b H; [reflexivity|].
  simpl in *. destruct (is_word c) eqn:Hw.
  - now rewrite (IH false H).
  - apply andb_true_iff in H as [H Ht]. apply andb_true_iff in H as [Hc Hb].
    apply Ascii.eqb_eq in Hc. subst c.
    apply negb_true_iff in Hb. subst b. now rewrite (IH true Ht).
Qed.

(** The substitution always produces a clean label. *)
Lemma sub_runs_is_clean s : forall b, clean_label b (sub_runs b s) = true.
Proof.
  induction s as [|c t IH]; intros b; [reflexivity|].
  simpl. destruct (is_word c) eqn:Hw.
  - simpl. now rewrite Hw.
  - destruct b; [apply IH|].
    simpl. apply (IH true).
Qed.

Lemma normalize_is_clean s : clean_label false (normalize s) = true.
Proof. apply sub_runs_is_clean. Qed.

Lemma normalize_clean s : clean_label false s = true -> normalize s = s.
Proof.
  intros H. unfold normalize, strip.
  rewrite (lstrip_clean _ _ H), (rstrip_clean _ _ H), (lower_clean _ _ H).
  now apply sub_runs_clean.
Qed.

End NormalizeFacts.

(** C9.  Normalizing a column label is idempotent: a label that went through
    strip, lower and the substitution of the runs of characters outside
    [a-z0-9] is left as it is by a second pass. *)
Theorem normalize_idempotent (s : string) : normalize (normalize s) = normalize s.
Proof. apply normalize_clean, normalize_is_clean. Qed.

(** ** The coercion of one cell *)

Section CoerceFacts.

Import Text.

Lemma digit_value_range c : is_digit c = true -> 0 <= digit_value c <= 9.
Proof.
  unfold is_digit, digit_value. intros H.
  apply andb_true_iff in H as [H1 H2].
  apply Nat.leb_le in H1. apply Nat.leb_le in H2. lia.
Qed.

Lemma digit_value_zero c :
  is_digit c = true -> (digit_value c = 0 <-> is_nonzero_digit c = false).
Proof.
  unfold is_digit, is_nonzero_digit, digit_value. intros H.
  apply andb_true_iff in H as [H1 H2].
  apply Nat.leb_le in H1. apply Nat.leb_le in H2.
  rewrite andb_false_iff, !Nat.leb_gt. lia.
Qed.

Lemma nonzero_digit_is_digit c : is_nonzero_digit c = true -> is_digit c = true.
Proof.
  unfold is_digit, is_nonzero_digit. intros H.
  apply andb_true_iff in H as [H1 H2].
  apply Nat.leb_le in H1. apply Nat.leb_le in H2.
  apply andb_true_iff. split; apply Nat.leb_le; lia.
Qed.

Lemma keep_digits_all_digits s : all_chars is_digit (keep_digits s) = true.
Proof.
  induction s as [|c t IH]; [reflexivity|].
  simpl. destruct (is_digit c) eqn:Hc; [|exact IH].
  simpl. now rewrite Hc.
Qed.

Lemma keep_digits_empty s : keep_digits s = EmptyString <-> has_char is_digit s = false.
Proof.
  induction s as [|c t IH]; [easy|].
  simpl. destruct (is_digit c); simpl; [easy | exact IH].
Qed.

Lemma keep_digits_nonzero s :
  has_char is_nonzero_digit (keep_digits s) = has_char is_nonzero_digit s.
Proof.
  induction s as [|c t IH]; [reflexivity|].
  simpl. destruct (is_digit c) eqn:Hc; simpl; [now rewrite IH|].
  destruct (is_nonzero_digit c) eqn:Hn; [|exact IH].
  apply nonzero_digit_is_digit in Hn. congruence.
Qed.


Lemma decimal_from_zero s : forall acc,
  all_chars is_digit s = true -> 0 <= acc ->
  (decimal_from acc s = 0 <-> acc = 0 /\ has_char is_nonzero_digit s = false).
Proof.
  induction s as [|c t IH]; intros acc Hs Hacc; simpl in *; [tauto|].
  apply andb_true_iff in Hs as [Hc Ht].
  pose proof (digit_value_range c Hc) as Hr.
  pose proof (digit_value_zero c Hc) as Hz.
  rewrite (IH (10 * acc + digit_value c) Ht) by lia.
  rewrite orb_false_iff. split.
  - intros [H1 H2]. repeat split; [lia | apply Hz; lia | exact H2].
  - intros [H1 [H2 H3]]. apply Hz in H2. split; [lia | exact H3].
Qed.

Lemma to_numeric_None s : to_numeric s = None <-> s = EmptyString.
Proof. destruct s; simpl; split; congruence. Qed.


Lemma coerce_cell_zero s :
  coerce_cell s = 0 <-> has_char is_nonzero_digit s = false.
Proof.
  rewrite <- keep_digits_nonzero. unfold coerce_cell, to_numeric.
  pose proof (keep_digits_all_digits s) as H.
  destruct (keep_digits s) as [|c t]; [easy|].
  cbn [fillna_0]. rewrite (decimal_from_zero (String c t) 0 H) by lia.
  tauto.
Qed.


End CoerceFacts.

Example coerce_cases : coerce_cell "1,234 cases" = 1234.
Proof. reflexivity. Qed.

(** C10 as it is written does not hold: the text ["0"] contains a digit and
    becomes 0. *)
Lemma zero_text_becomes_zero :
  Text.has_char Text.is_digit "0" = true /\ coerce_cell "0" = 0
  /\ ~ (forall s, coerce_cell s = 0 -> Text.has_char Text.is_digit s = false).
Proof.
  split; [reflexivity|]. split; [reflexivity|].
  intros H. specialize (H "0" eq_refl). discriminate H.
Qed.

(** C10, amended.  The sign and the decimal point are stripped with every
    other non-digit: ["-5"] becomes 5 and ["12.5"] becomes 125.  A text
    without any digit is the one case that reaches the missing-value
    default, and the texts that become 0 are those without a non-zero
    digit. *)
Theorem coerce_cell_edge_cases :
  coerce_cell "-5" = 5 /\ coerce_cell "12.5" = 125
  /\ (forall s, to_numeric (Text.keep_digits s) = None
                <-> Text.has_char Text.is_digit s = false)
  /\ (forall s, coerce_cell s = 0
                <-> Text.has_char Text.is_nonzero_digit s = false).
Proof.
  split; [reflexivity|]. split; [reflexivity|]. split.
  - intros s. rewrite to_numeric_None. apply keep_digits_empty.
  - apply coerce_cell_zero.
Qed.

(** ** Tables: selection and assignment *)

Lemma exn_bind_inv {A B : Type} (m : exn + A) (f : A -> exn + B) (y : B) :
  m ≫= f = inr y -> exists x, m = inr x /\ f x = inr y.
Proof. destruct m as [e|x]; [discriminate|]. intros H. now exists x. Qed.

Lemma exn_bind_inr {A B : Type} (x : A) (f : A -> exn + B) : inr x ≫= f = f x.
Proof. reflexivity. Qed.

Lemma select_nil k : select [] k = [].
Proof. reflexivity. Qed.

Lemma select_cons k k' s df :
  select ((k', s) :: df) k = if String.eqb k k' then s :: select df k else select df k.
Proof. unfold select. simpl. now destruct (String.eqb k k'). Qed.

Lemma select_app k df1 df2 : select (df1 ++ df2) k = (select df1 k ++ select df2 k)%list.
Proof. unfold select. now rewrite List.filter_app, map_app. Qed.

Lemma has_column_cons k k' s df :
  has_column ((k', s) :: df) k = String.eqb k k' || has_column df k.
Proof. reflexivity. Qed.

Lemma has_column_select df k : has_column df k = false <-> select df k = [].
Proof.
  induction df as [|[k' s] df IH]; [split; reflexivity|].
  rewrite has_column_cons, select_cons.
  destruct (String.eqb k k'); simpl; [split; discriminate | exact IH].
Qed.

Lemma has_column_true df k : has_column df k = true <-> select df k <> [].
Proof.
  rewrite <- has_column_select. destruct (has_column df k); split; congruence.
Qed.

(** A function applied to every column commutes with selection. *)
Lemma select_map_values (g : Series -> Series) df k :
  select (map (fun p => (fst p, g (snd p))) df) k = map g (select df k).
Proof.
  induction df as [|[k' s] df IH]; [reflexivity|].
  cbn [map fst snd]. rewrite !select_cons.
  destruct (String.eqb k k'); cbn [map]; now rewrite IH.
Qed.

Lemma select_set_columns (f : string -> string) df k :
  select (set_columns f df) k =
  map snd (List.filter (fun p => String.eqb k (f (fst p))) df).
Proof.
  induction df as [|[k' s] df IH]; [reflexivity|].
  unfold set_columns in *. cbn [map fst snd List.filter].
  rewrite select_cons, IH. now destruct (String.eqb k (f k')).
Qed.

Lemma select_replace_other k k' s df :
  k <> k' ->
  select (map (fun p => if String.eqb k (fst p) then (fst p, s) else p) df) k'
  = select df k'.
Proof.
  intros Hne. induction df as [|[k0 s0] df IH]; [reflexivity|].
  cbn [map fst]. destruct (String.eqb k k0) eqn:E.
  - apply String.eqb_eq in E. subst k0. rewrite !select_cons, IH.
    assert (String.eqb k' k = false) as -> by (apply String.eqb_neq; congruence).
    reflexivity.
  - now rewrite !select_cons, IH.
Qed.

Lemma select_replace_same k s df :
  select (map (fun p => if String.eqb k (fst p) then (fst p, s) else p) df) k
  = map (fun _ => s) (select df k).
Proof.
  induction df as [|[k0 s0] df IH]; [reflexivity|].
  cbn [map fst]. destruct (String.eqb k k0) eqn:E.
  - rewrite !select_cons. cbn [fst]. rewrite E, IH. reflexivity.
  - rewrite !select_cons, E, IH. reflexivity.
Qed.

Lemma select_assign_other df k k' s :
  k <> k' -> select (assign df k s) k' = select df k'.
Proof.
  intros Hne. unfold assign. destruct (has_column df k).
  - now apply select_replace_other.
  - rewrite select_app, select_cons, select_nil.
    assert (String.eqb k' k = false) as -> by (apply String.eqb_neq; congruence).
    apply app_nil_r.
Qed.

Lemma select_assign_same df k s :
  select (assign df k s) k =
  match select df k with
  | [] => [s]
  | l => map (fun _ => s) l
  end.
Proof.
  unfold assign. destruct (has_column df k) eqn:E.
  - rewrite select_replace_same. apply has_column_true in E.
    now destruct (select df k).
  - apply has_column_select in E.
    rewrite select_app, E, select_cons, String.eqb_refl. reflexivity.
Qed.

(** Assigning to a label carried at most once leaves it carried once. *)
Lemma select_assign_one df k s :
  (length (select df k) <= 1)%nat -> select (assign df k s) k = [s].
Proof.
  intros H. rewrite select_assign_same.
  destruct (select df k) as [|s1 [|s2 l]]; [reflexivity | reflexivity|].
  simpl in H. lia.
Qed.

Lemma getitem_column df k s : select df k = [s] -> getitem df k = inr (Column s).
Proof. unfold getitem. now intros ->. Qed.

Lemma getitem_inv df k it :
  getitem df k = inr it ->
  match it with
  | Column s => select df k = [s]
  | Frame cols => select df k = cols /\ (2 <= length cols)%nat
  end.
Proof.
  unfold getitem. destruct (select df k) as [|s1 [|s2 l]]; intros H;
    inversion H; subst; [reflexivity|]. split; [reflexivity | simpl; lia].
Qed.

(** ** Masks and sorting *)

Section SortFacts.

Context {K A : Type} (leb : K -> K -> bool).
Hypothesis leb_total : forall a b, leb a b = false -> leb b a = true.

Lemma insert_row_Forall (P : K * A -> Prop) x l :
  P x -> Forall P l -> Forall P (insert_row leb x l).
Proof.
  intros Hx. induction 1 as [|y t Hy Ht IH]; simpl.
  - now repeat constructor.
  - destruct (leb (fst x) (fst y)); repeat constructor; assumption.
Qed.

Lemma sort_rows_Forall (P : K * A -> Prop) l :
  Forall P l -> Forall P (sort_rows leb l).
Proof.
  induction 1 as [|x t Hx Ht IH]; simpl; [constructor|].
  now apply insert_row_Forall.
Qed.

Lemma insert_row_length (x : K * A) l : length (insert_row leb x l) = S (length l).
Proof.
  induction l as [|y t IH]; simpl; [reflexivity|].
  destruct (leb (fst x) (fst y)); simpl; now rewrite ?IH.
Qed.

Lemma sort_rows_length (l : list (K * A)) : length (sort_rows leb l) = length l.
Proof.
  induction l as [|x t IH]; simpl; [reflexivity|].
  now rewrite insert_row_length, IH.
Qed.

Lemma insert_row_HdRel (x y : K * A) l :
  key_le leb y x -> HdRel (key_le leb) y l -> HdRel (key_le leb) y (insert_row leb x l).
Proof.
  intros Hyx H. destruct H as [|z t Hz]; simpl.
  - now constructor.
  - destruct (leb (fst x) (fst z)); now constructor.
Qed.

Lemma insert_row_Sorted (x : K * A) l :
  Sorted (key_le leb) l -> Sorted (key_le leb) (insert_row leb x l).
Proof.
  induction 1 as [|y t Ht IH Hd]; simpl.
  - repeat constructor.
  - destruct (leb (fst x) (fst y)) eqn:E.
    + constructor; [now constructor|]. now constructor.
    + constructor; [exact IH|].
      apply insert_row_HdRel; [|exact Hd]. now apply leb_total.
Qed.

Lemma sort_rows_Sorted (l : list (K * A)) : Sorted (key_le leb) (sort_rows leb l).
Proof.
  induction l as [|x t IH]; simpl; [constructor|].
  now apply insert_row_Sorted.
Qed.

End SortFacts.

Lemma na_last_leb_total a b : na_last_leb a b = false -> na_last_leb b a = true.
Proof.
  destruct a as [x|], b as [y|]; simpl; try congruence.
  rewrite Z.leb_gt, Z.leb_le. lia.
Qed.

Lemma combine_self {A : Type} (l : list A) (P : A -> Prop) :
  Forall P l -> Forall (fun p => fst p = snd p /\ P (fst p)) (combine l l).
Proof. induction 1; simpl; constructor; auto. Qed.

Lemma map_fst_snd {A : Type} (l : list (A * A)) :
  Forall (fun p => fst p = snd p) l -> map snd l = map fst l.
Proof. induction 1 as [|[a b] t H Ht IH]; simpl in *; congruence. Qed.

(** A list of present keys in key order is a list of instants in ascending
    order. *)
Lemma present_keys_sorted {A : Type} (l : list (option Z * A)) :
  Forall (fun p => present (fst p) = true) l ->
  Sorted (key_le na_last_leb) l ->
  exists ds, map fst l = map Some ds /\ Sorted Z.le ds.
Proof.
  induction 1 as [|[k a] t Hk Ht IH]; intros Hs.
  - exists []. split; constructor.
  - inversion Hs as [|? ? Hs' Hd]; subst.
    destruct (IH Hs') as [ds [E Hds]].
    destruct k as [x|]; [|discriminate Hk].
    exists (x :: ds). split; [simpl; now rewrite E|].
    constructor; [exact Hds|].
    destruct t as [|[k' a'] t']; destruct ds as [|d ds']; try discriminate E.
    + constructor.
    + inversion Hd as [|? ? Hle]; subst. simpl in E. inversion E; subst.
      simpl in Hle. constructor. now apply Z.leb_le.
Qed.

(** Sorting a datetime column by itself, once its missing cells are gone. *)
Lemma order_by_self (l : list (option Z)) :
  Forall (fun k => present k = true) l ->
  exists ds, order_by na_last_leb l (option Z) l = map Some ds /\ Sorted Z.le ds.
Proof.
  intros Hl. unfold order_by.
  pose proof (sort_rows_Forall na_last_leb _ _ (combine_self l _ Hl)) as Hall.
  rewrite map_fst_snd by (eapply List.Forall_impl; [|exact Hall]; now intros p [H _]).
  apply present_keys_sorted.
  - eapply List.Forall_impl; [|exact Hall]. now intros p [_ H].
  - apply sort_rows_Sorted. apply na_last_leb_total.
Qed.

Lemma take_mask_present {A : Type} (l : list (option A)) :
  Forall (fun k => present k = true) (take_mask (map present l) l).
Proof.
  induction l as [|[x|] t IH]; simpl; [constructor | | exact IH].
  now constructor.
Qed.

Lemma take_mask_Forall {A : Type} (P : A -> Prop) (m : list bool) (l : list A) :
  Forall P l -> Forall P (take_mask m l).
Proof.
  intros H. revert m. induction H as [|x t Hx Ht IH]; intros [|b m]; simpl;
    try constructor.
  destruct b; [constructor; [exact Hx|]|]; apply IH.
Qed.

Lemma order_by_Forall {K A : Type} (leb : K -> K -> bool) (keys : list K)
  (P : A -> Prop) (l : list A) :
  Forall P l -> Forall P (order_by leb keys A l).
Proof.
  intros H. unfold order_by. apply List.Forall_map.
  apply sort_rows_Forall.
  revert keys. induction H as [|x t Hx Ht IH]; intros [|k keys]; simpl;
    constructor; auto.
Qed.

Lemma all_notna_one (s : Series) : all_notna (height s) [s] = notna s.
Proof.
  simpl. assert (length (notna s) = height s) as E
    by (destruct s; simpl; now rewrite length_map).
  rewrite <- E. clear E. induction (notna s) as [|b t IH]; [reflexivity|].
  cbn [length repeat combine map fst snd]. now rewrite IH, andb_true_r.
Qed.

(** ** [load_data]: the date step and the coercion loop *)

Lemma astype_Int64_inr l s :
  astype_Int64 l = inr s <-> Forall in_int64 l /\ s = SInt (map Some l).
Proof.
  unfold astype_Int64.
  destruct (forallb _ l) eqn:E.
  - rewrite forallb_forall in E. split.
    + intros H. inversion H; subst. split; [|reflexivity].
      apply List.Forall_forall. intros z Hz. apply E in Hz.
      apply andb_true_iff in Hz as [H1 H2].
      apply Z.leb_le in H1. apply Z.leb_le in H2. now split.
    + now intros [_ ->].
  - split; [discriminate|]. intros [H _].
    assert (forallb (fun z => Z.leb INT64_MIN z && Z.leb z INT64_MAX) l = true)
      as E'; [|congruence].
    apply forallb_forall. intros z Hz.
    rewrite List.Forall_forall in H. destruct (H z Hz) as [H1 H2].
    apply andb_true_iff. split; now apply Z.leb_le.
Qed.

Section LoaderFacts.

Variable parse_date : string -> option Z.
Variable render : Series -> list string.

Lemma to_datetime_column s :
  exists dates, to_datetime parse_date (Column s) = inr (SDate dates).
Proof. destruct s; simpl; eauto. Qed.

(** The date step on a table that carries the label [date] once. *)
Lemma parse_dates_unique df s :
  select df "date" = [s] ->
  exists f dates ds,
    row_selection f
    /\ to_datetime parse_date (Column s) = inr (SDate dates)
    /\ parse_dates parse_date df
       = inr (map (fun p => (fst p, on_rows f (snd p))) (assign df "date" (SDate dates)))
    /\ on_rows f (SDate dates) = SDate (map Some ds)
    /\ Sorted Z.le ds.
Proof.
  intros Hs. destruct (to_datetime_column s) as [dates Hd].
  set (mask := map present dates).
  set (kept := take_mask mask dates).
  destruct (order_by_self kept (take_mask_present dates)) as [ds [Hds Hsorted]].
  exists (fun A l => order_by na_last_leb kept A (take_mask mask l)), dates, ds.
  split; [|split; [exact Hd|split; [|split; [cbn [on_rows]; fold kept; now rewrite Hds | exact Hsorted]]]].
  - intros A P l H. now apply order_by_Forall, take_mask_Forall.
  - unfold parse_dates. rewrite (getitem_column _ _ _ Hs), exn_bind_inr, Hd, exn_bind_inr.
    assert (select (assign df "date" (SDate dates)) "date" = [SDate dates]) as Ha
      by (apply select_assign_one; rewrite Hs; simpl; lia).
    unfold dropna. rewrite Ha.
    change (rows_of [SDate dates]) with (height (SDate dates)).
    rewrite all_notna_one. cbn [notna]. fold mask. rewrite exn_bind_inr.
    unfold sort_values.
    rewrite (getitem_column _ _ (SDate kept))
      by (rewrite select_map_values, Ha; reflexivity).
    rewrite map_map. f_equal. apply map_ext.
    intros [k0 s0]. cbn [fst snd]. now destruct s0.
Qed.

Lemma parse_dates_inv df df' :
  parse_dates parse_date df = inr df' -> exists s, select df "date" = [s].
Proof.
  unfold parse_dates. intros H.
  apply exn_bind_inv in H as [it [Hit H]].
  apply getitem_inv in Hit. destruct it as [s|cols]; [now exists s|].
  discriminate H.
Qed.

(** The coercion of one label. *)
Lemma clean_column_absent df c :
  select df c = [] -> clean_column render df c = inr df.
Proof.
  intros H. apply has_column_select in H. unfold clean_column. now rewrite H.
Qed.

Lemma clean_column_one df c s :
  select df c = [s] ->
  clean_column render df c
  = (counts ← astype_Int64 (map coerce_cell (astype_str render s));
     inr (assign df c counts)).
Proof.
  intros H. unfold clean_column.
  assert (has_column df c = true) as -> by (apply has_column_true; congruence).
  now rewrite (getitem_column _ _ _ H).
Qed.

Lemma clean_column_twice df c :
  (2 <= length (select df c))%nat -> clean_column render df c = inl AttributeError.
Proof.
  intros H. unfold clean_column, getitem.
  assert (has_column df c = true) as ->
    by (apply has_column_true; destruct (select df c); simpl in *; [lia | congruence]).
  destruct (select df c) as [|s1 [|s2 l]]; simpl in H; try lia. reflexivity.
Qed.

Lemma clean_column_spec df c df' :
  clean_column render df c = inr df' ->
  coerced render (select df c) (select df' c)
  /\ forall k, k <> c -> select df' k = select df k.
Proof using render.
  intros H. destruct (select df c) as [|s1 [|s2 l]] eqn:E.
  - rewrite (clean_column_absent _ _ E) in H. inversion H; subst.
    split; [left; now rewrite E | reflexivity].
  - rewrite (clean_column_one _ _ _ E) in H.
    apply exn_bind_inv in H as [counts [Hc H]]. inversion H; subst.
    apply astype_Int64_inr in Hc as [Hr ->]. split.
    + right. exists s1. split; [reflexivity|]. split; [|exact Hr].
      rewrite select_assign_one by (rewrite E; simpl; lia).
      now rewrite map_map.
    + intros k Hk. apply select_assign_other. congruence.
  - rewrite clean_column_twice in H by (rewrite E; simpl; lia). discriminate H.
Qed.

Lemma clean_columns_spec cols :
  NoDup cols -> forall df df',
  clean_columns render cols df = inr df' ->
  (forall k, In k cols -> coerced render (select df k) (select df' k))
  /\ (forall k, ~ In k cols -> select df' k = select df k).
Proof using render.
  induction 1 as [|c rest Hc Hnd IH]; intros df df' H.
  - inversion H; subst. split; [intros k []| reflexivity].
  - cbn [clean_columns] in H. apply exn_bind_inv in H as [df1 [H1 H2]].
    apply clean_column_spec in H1 as [Hcc Hother].
    apply IH in H2 as [Hin Hout]. split.
    + intros k [<- | Hk].
      * rewrite Hout by (intros Hin'; apply Hc; now apply list_elem_of_In).
        exact Hcc.
      * assert (k <> c) as Hne by (intros ->; apply Hc; now apply list_elem_of_In).
        rewrite <- (Hother k Hne). now apply Hin.
    + intros k Hk.
      rewrite Hout by (intros Hin'; apply Hk; now right).
      apply Hother. intros ->. apply Hk. now left.
Qed.

Lemma clean_columns_ok cols :
  NoDup cols -> forall df,
  (forall k, In k cols ->
     select df k = []
     \/ exists s, select df k = [s]
          /\ Forall in_int64 (map coerce_cell (astype_str render s))) ->
  exists df', clean_columns render cols df = inr df'.
Proof using render.
  induction 1 as [|c rest Hc Hnd IH]; intros df Hdf; [now exists df|].
  cbn [clean_columns].
  assert (exists df1, clean_column render df c = inr df1) as [df1 H1].
  { destruct (Hdf c (or_introl eq_refl)) as [E | [s [E Hr]]].
    - exists df. now apply clean_column_absent.
    - rewrite (clean_column_one _ _ _ E).
      rewrite (proj2 (astype_Int64_inr _ _) (conj Hr eq_refl)).
      eexists. reflexivity. }
  rewrite H1, exn_bind_inr. apply IH. intros k Hk.
  assert (k <> c) as Hne by (intros ->; apply Hc; now apply list_elem_of_In).
  apply clean_column_spec in H1 as [_ Hother].
  rewrite (Hother k Hne). apply Hdf. now right.
Qed.

Lemma numeric_cols_NoDup : NoDup numeric_cols.
Proof.
  apply (bool_decide_unpack _). now vm_compute.
Qed.

Lemma date_not_numeric : ~ In "date" numeric_cols.
Proof. simpl. intuition discriminate. Qed.

End LoaderFacts.

(** ** [load_data]: the claims *)

Section LoaderClaims.

Variable parse_date : string -> option Z.
Variable render : Series -> list string.

(** A table comes out of [load_data] through the date step on a table with
    one [date] column, followed by the coercion loop. *)
Lemma load_data_Table raw df :
  load_data parse_date render (Some raw) = Table df ->
  exists f s dates ds,
    row_selection f
    /\ select (relabel raw) "date" = [s]
    /\ on_rows f (SDate dates) = SDate (map Some ds)
    /\ Sorted Z.le ds
    /\ clean_columns render numeric_cols
         (map (fun p => (fst p, on_rows f (snd p)))
              (assign (relabel raw) "date" (SDate dates))) = inr df.
Proof.
  unfold load_data. fold (relabel raw).
  destruct (has_column (relabel raw) "date"); [|discriminate].
  destruct (parse_dates parse_date (relabel raw) ≫= _) as [e|df1] eqn:E;
    [discriminate|].
  intros H. inversion H; subst df1. clear H.
  apply exn_bind_inv in E as [dated [Hd Hc]].
  destruct (parse_dates_inv _ _ _ Hd) as [s Hs].
  destruct (parse_dates_unique parse_date _ _ Hs) as (f & dates & ds & Hf & _ & Hp & Hds & Hsorted).
  rewrite Hp in Hd. inversion Hd; subst dated.
  now exists f, s, dates, ds.
Qed.


(** The columns of the table the coercion loop starts from. *)
Lemma select_dated (f : forall A : Type, list A -> list A) df dates k :
  (length (select df "date") <= 1)%nat ->
  select (map (fun p => (fst p, on_rows f (snd p))) (assign df "date" (SDate dates))) k
  = if String.eqb k "date" then [on_rows f (SDate dates)]
    else map (on_rows f) (select df k).
Proof.
  intros H. rewrite select_map_values. destruct (String.eqb k "date") eqn:E.
  - apply String.eqb_eq in E. subst k. now rewrite select_assign_one.
  - apply String.eqb_neq in E. rewrite select_assign_other by congruence.
    reflexivity.
Qed.




Lemma on_rows_length_preserved (f : forall A : Type, list A -> list A) (l : list Series) :
  length (map (on_rows f) l) = length l.
Proof. apply length_map. Qed.

(** The count labels of a loaded table were carried at most once. *)
Lemma load_data_labels raw df :
  load_data parse_date render (Some raw) = Table df ->
  length (select (relabel raw) "date") = 1%nat
  /\ forall k, In k numeric_cols -> (length (select (relabel raw) k) <= 1)%nat.
Proof.
  intros H.
  apply load_data_Table in H as (f & s0 & dates & ds & Hf & Hs & _ & _ & Hc).
  split; [now rewrite Hs|].
  apply (clean_columns_spec render _ numeric_cols_NoDup) in Hc as [Hin _].
  intros k Hk. specialize (Hin k Hk).
  assert (String.eqb k "date" = false) as Hne.
  { apply String.eqb_neq. intros ->. now apply date_not_numeric. }
  rewrite select_dated, Hne in Hin by (rewrite Hs; simpl; lia).
  rewrite <- (on_rows_length_preserved f).
  destruct Hin as [[-> _] | [s [-> _]]]; simpl; lia.
Qed.



(** C8 as it is written does not hold: with [TotalCases] and [Confirmed]
    both present, two columns carry the canonical label after the renaming,
    and no table is returned. *)
Lemma both_aliases_are_kept :
  let raw := [ ("Date", SObj ["2021-01-01"]);
               ("TotalCases", SObj ["10"]);
               ("Confirmed", SObj ["12"]) ] in
  select (relabel raw) "total_confirmed_cases" = [SObj ["10"]; SObj ["12"]]
  /\ load_data Sample.iso_date Sample.render_blank (Some raw)
     = DataLoadingFailed AttributeError.
Proof. split; vm_compute; reflexivity. Qed.

(** C8, amended.  The renaming gives every column its canonical label and
    keeps them all, so that two aliases of one name leave two columns under
    that name; when this happens to a count label, [load_data] returns no
    table.  A table without alias labels is left as it is. *)
Theorem rename_keeps_both_aliases :
  (forall df k,
     select (set_columns rename_label df) k
     = map snd (List.filter (fun p => String.eqb k (rename_label (fst p))) df))
  /\ (forall raw k,
        In k numeric_cols -> (2 <= length (select (relabel raw) k))%nat ->
        load_data parse_date render (Some raw) = DateColumnNotFound
        \/ exists e, load_data parse_date render (Some raw) = DataLoadingFailed e)
  /\ (forall df,
        (forall k, In k (columns df) -> dict_get column_mapping k = None) ->
        set_columns rename_label df = df).
Proof.
  split; [exact (select_set_columns rename_label)|]. split.
  - intros raw k Hk Hlen.
    destruct (load_data parse_date render (Some raw)) as [df| |e] eqn:E; [|now left|right; now exists e].
    apply load_data_labels in E as [_ E]. specialize (E k Hk). lia.
  - intros df. unfold set_columns, columns, rename_label.
    induction df as [|[k s] df IH]; intros H; [reflexivity|].
    cbn [map fst snd]. rewrite (H k (or_introl eq_refl)).
    f_equal. apply IH. intros k' Hk'. apply H. now right.
Qed.

End LoaderClaims.

(** ** Running a computation on the heap *)

Lemma py_bind_run {A B : Type} (m : Py A) (f : A -> Py B) h x h' :
  m h = (inr x, h') -> (m ≫= f) h = f x h'.
Proof. intros H. unfold mbind, py_bind. now rewrite H. Qed.

Lemma py_bind_raise {A B : Type} (m : Py A) (f : A -> Py B) h e h' :
  m h = (inl e, h') -> (m ≫= f) h = (inl e, h').
Proof. intros H. unfold mbind, py_bind. now rewrite H. Qed.

Lemma numeric_of_series_of n : numeric_of (series_of n) = inr n.
Proof. now destruct n. Qed.

Lemma py_getitem_run df k (h : heap) t n :
  h !! df = Some t -> select t k = [series_of n] ->
  py_getitem df k h = (inr n, h).
Proof.
  intros Hh Hs. unfold py_getitem. rewrite Hh, (getitem_column _ _ _ Hs).
  now rewrite exn_bind_inr, numeric_of_series_of.
Qed.

Lemma py_setitem_run df k n (h : heap) t :
  h !! df = Some t ->
  py_setitem df k n h = (inr tt, <[df := assign t k (series_of n)]> h).
Proof. intros Hh. unfold py_setitem. now rewrite Hh. Qed.

(** One statement [df[k] = n] followed by the rest of the function. *)
Lemma py_assign_then {A : Type} df k n (rest : Py A) (h : heap) t :
  h !! df = Some t ->
  (py_setitem df k n ≫= fun _ => rest) h
  = rest (<[df := assign t k (series_of n)]> h).
Proof. intros Hh. now rewrite (py_bind_run _ _ _ _ _ (py_setitem_run df k n h t Hh)). Qed.

Lemma py_read_then {A : Type} df k (rest : numeric -> Py A) (h : heap) t n :
  h !! df = Some t -> select t k = [series_of n] ->
  (py_getitem df k ≫= rest) h = rest n h.
Proof.
  intros Hh Hs. now rewrite (py_bind_run _ _ _ _ _ (py_getitem_run df k h t n Hh Hs)).
Qed.

Lemma at_most_once_assign t ks k s :
  at_most_once t ks -> at_most_once (assign t k s) ks.
Proof.
  intros H k' Hk'. specialize (H k' Hk').
  destruct (String.eqb_spec k k') as [<- | Hne].
  - rewrite select_assign_same.
    destruct (select t k); [simpl; lia | now rewrite length_map].
  - now rewrite select_assign_other.
Qed.

(** ** Cells of the derived columns, row by row *)

Lemma lookup_map {A B : Type} (f : A -> B) (l : list A) (i : nat) :
  map f l !! i = f <$> l !! i.
Proof.
  revert i. induction l as [|x t IH]; intros [|i]; simpl; try reflexivity.
  apply IH.
Qed.

Lemma shift_length {A : Type} (na : A) l : length (shift na l) = length l.
Proof. unfold shift. rewrite length_take. simpl. lia. Qed.

Lemma shift_lookup_0 {A : Type} (na : A) l :
  l <> [] -> shift na l !! 0%nat = Some na.
Proof. destruct l; [congruence|]. reflexivity. Qed.

Lemma shift_lookup_S {A : Type} (na : A) l i x :
  l !! S i = Some x -> shift na l !! S i = l !! i.
Proof.
  intros H. unfold shift. apply lookup_lt_Some in H.
  now rewrite lookup_take_lt by lia.
Qed.

(** The first row of a column combined with its shift sees the missing
    value; every other row sees the row before. *)
Lemma zip_shift_0 {A B : Type} (f : A -> A -> B) (na : A) l x :
  l !! 0%nat = Some x -> zip_with f l (shift na l) !! 0%nat = Some (f x na).
Proof. destruct l; [discriminate|]. simpl. now intros [= ->]. Qed.

Lemma zip_shift_S {A B : Type} (f : A -> A -> B) (na : A) l i x p :
  l !! i = Some p -> l !! S i = Some x ->
  zip_with f l (shift na l) !! S i = Some (f x p).
Proof.
  intros Hp Hx. rewrite lookup_zip_with, Hx, (shift_lookup_S na l i x Hx), Hp.
  reflexivity.
Qed.

Lemma zip_shift_length {A B : Type} (f : A -> A -> B) (na : A) l :
  length (zip_with f l (shift na l)) = length l.
Proof. rewrite length_zip_with, shift_length. lia. Qed.

(** ** [calculate_growth_metrics] on a table with one count column *)

Ltac other_label := rewrite ?select_assign_other by discriminate.

Section GrowthFacts.

Variable ln : Q -> Q.

(** The function runs to its end, returns the reference it was given, and
    leaves these four columns in the table the reference points to. *)
Lemma growth_run df (h : heap) t c :
  h !! df = Some t ->
  select t "total_confirmed_cases" = [series_of c] ->
  at_most_once t growth_columns ->
  let g := fillna0 (pct_change c) in
  let d := rdiv_float (log_2 ln) (np_log ln (radd_int 1 g)) in
  exists t',
    calculate_growth_metrics ln df h = (inr df, <[df := t']> h)
    /\ select t' "daily_change" = [series_of (fillna0 (diff c))]
    /\ select t' "growth_rate" = [series_of g]
    /\ select t' "growth_rate_pct" = [series_of (mul_int g 100)]
    /\ select t' "doubling_time_days" = [series_of (fillna0 (replace_inf d))]
    /\ forall k, ~ In k growth_columns -> select t' k = select t k.
Proof.
  intros Hh Hc Hm g d.
  assert (forall k, In k growth_columns -> forall t0, at_most_once t0 growth_columns ->
            (length (select t0 k) <= 1)%nat) as Hone by (intros k Hk t0 H0; now apply H0).
  set (t1 := assign t "daily_change" (series_of (fillna0 (diff c)))).
  set (t2 := assign t1 "growth_rate" (series_of g)).
  set (t3 := assign t2 "growth_rate_pct" (series_of (mul_int g 100))).
  set (t4 := assign t3 "doubling_time_days" (series_of d)).
  set (t5 := assign t4 "doubling_time_days" (series_of (fillna0 (replace_inf d)))).
  assert (at_most_once t1 growth_columns) as Hm1 by now apply at_most_once_assign.
  assert (at_most_once t2 growth_columns) as Hm2 by now apply at_most_once_assign.
  assert (at_most_once t3 growth_columns) as Hm3 by now apply at_most_once_assign.
  assert (at_most_once t4 growth_columns) as Hm4 by now apply at_most_once_assign.
  assert (select t2 "growth_rate" = [series_of g]) as Hg2
    by (apply select_assign_one, Hm1; simpl; tauto).
  assert (select t4 "doubling_time_days" = [series_of d]) as Hd4
    by (apply select_assign_one, Hm3; simpl; tauto).
  exists t5. split; [|repeat split].
  - unfold calculate_growth_metrics.
    rewrite (py_read_then _ _ _ h t c Hh Hc), (py_assign_then _ _ _ _ h t Hh).
    fold t1. set (h1 := <[df:=t1]> h).
    assert (h1 !! df = Some t1) as Hh1 by apply lookup_insert_eq.
    rewrite (py_read_then _ _ _ h1 t1 c Hh1) by (unfold t1; now other_label).
    rewrite (py_assign_then _ _ _ _ h1 t1 Hh1).
    fold g t2. set (h2 := <[df:=t2]> h1).
    assert (h2 !! df = Some t2) as Hh2 by apply lookup_insert_eq.
    rewrite (py_read_then _ _ _ h2 t2 g Hh2 Hg2), (py_assign_then _ _ _ _ h2 t2 Hh2).
    fold t3. set (h3 := <[df:=t3]> h2).
    assert (h3 !! df = Some t3) as Hh3 by apply lookup_insert_eq.
    rewrite (py_read_then _ _ _ h3 t3 g Hh3) by (unfold t3; now other_label).
    rewrite (py_assign_then _ _ _ _ h3 t3 Hh3).
    fold d t4. set (h4 := <[df:=t4]> h3).
    assert (h4 !! df = Some t4) as Hh4 by apply lookup_insert_eq.
    rewrite (py_read_then _ _ _ h4 t4 d Hh4 Hd4), (py_assign_then _ _ _ _ h4 t4 Hh4).
    fold t5. unfold h4, h3, h2, h1. now rewrite !insert_insert_eq.
  - unfold t5, t4, t3, t2. other_label.
    apply select_assign_one, Hm. simpl; tauto.
  - unfold t5, t4, t3. other_label. exact Hg2.
  - unfold t5, t4. other_label. apply select_assign_one, Hm2. simpl; tauto.
  - apply select_assign_one. rewrite Hd4. simpl; lia.
  - intros k Hk. unfold t5, t4, t3, t2, t1.
    rewrite !select_assign_other; [reflexivity| | | | |];
      intros <-; apply Hk; simpl; tauto.
Qed.

Lemma growth_cells c :
  fillna0 (pct_change c)
  = Floats (zip_with growth_cell (as_floats c) (shift NaN (as_floats c))).
Proof.
  unfold pct_change, fillna0.
  generalize (shift NaN (as_floats c)). generalize (as_floats c).
  intros l k. f_equal. revert k.
  induction l as [|x l IH]; intros [|p k]; simpl; try reflexivity.
  now rewrite IH.
Qed.


Lemma growth_cell_first x : growth_cell x NaN = Fin 0.
Proof. now destruct x. Qed.

Lemma growth_cell_not_nan x p : growth_cell x p <> NaN.
Proof.
  unfold growth_cell. destruct (Float64.sub _ _) eqn:E; simpl; discriminate.
Qed.

Lemma Qsign_inject_Z z : Float64.Qsign (inject_Z z) = (z ?= 0).
Proof. reflexivity. Qed.

Lemma growth_cell_zero_before c :
  0 <= c ->
  growth_cell (Float64.of_Z c) (Float64.of_Z 0) = if c =? 0 then Fin 0 else PInf.
Proof.
  intros Hc. unfold growth_cell, Float64.of_Z, Float64.div.
  rewrite !Qsign_inject_Z. change (0 ?= 0) with Eq. cbv iota.
  destruct (Z.eqb_spec c 0) as [-> | Hne]; [reflexivity|].
  assert ((c ?= 0) = Gt) as -> by (apply Z.compare_gt_iff; lia).
  reflexivity.
Qed.

Lemma growth_cell_finite c p :
  p <> 0 ->
  exists q, growth_cell (Float64.of_Z c) (Float64.of_Z p) = Fin q
            /\ (q == (inject_Z c - inject_Z p) / inject_Z p)%Q.
Proof.
  intros Hp. unfold growth_cell, Float64.of_Z, Float64.div.
  rewrite Qsign_inject_Z.
  assert ((inject_Z c / inject_Z p - 1 == (inject_Z c - inject_Z p) / inject_Z p)%Q) as Hq.
  { field. intros H. apply Hp. unfold Qeq in H. simpl in H. lia. }
  destruct (p ?= 0) eqn:E; [apply Z.compare_eq_iff in E; contradiction| |];
    (eexists; split; [reflexivity|]);
    rewrite !Qred_correct; exact Hq.
Qed.





Lemma as_floats_counts zs i z :
  zs !! i = Some z -> as_floats (Ints (map Some zs)) !! i = Some (Float64.of_Z z).
Proof. intros H. cbn [as_floats]. now rewrite !lookup_map, H. Qed.

(** What [growth_rate] holds on a table whose confirmed cases are counts.
    The first row is 0 and no row is NaN.  A row that follows a row without
    cases is 0 when it has no case either and plus infinity when it has
    cases; a row that follows a row with cases holds the relative change. *)
Lemma growth_rate_cells df (h : heap) t zs :
  h !! df = Some t ->
  counts t "total_confirmed_cases" zs ->
  at_most_once t growth_columns ->
  exists t' gs,
    calculate_growth_metrics ln df h = (inr df, <[df := t']> h)
    /\ select t' "growth_rate" = [SFloat gs]
    /\ length gs = length zs
    /\ (zs <> [] -> gs !! 0%nat = Some (Fin 0))
    /\ (forall i c, zs !! i = Some 0 -> zs !! S i = Some c ->
          gs !! S i = Some (if c =? 0 then Fin 0 else PInf))
    /\ (forall i p c, zs !! i = Some p -> p <> 0 -> zs !! S i = Some c ->
          exists q, gs !! S i = Some (Fin q)
                    /\ (q == (inject_Z c - inject_Z p) / inject_Z p)%Q)
    /\ Forall (fun g => g <> NaN) gs.
Proof.
  intros Hh [Hc Hpos] Hm.
  destruct (growth_run df h t (Ints (map Some zs)) Hh Hc Hm)
    as (t' & Hrun & _ & Hg & _ & _ & _).
  rewrite growth_cells in Hg. cbn [series_of] in Hg.
  eexists t', _. split; [exact Hrun|]. split; [exact Hg|].
  set (fs := as_floats (Ints (map Some zs))).
  assert (length fs = length zs) as Hlen by (unfold fs; cbn; now rewrite !length_map).
  split; [now rewrite zip_shift_length|]. split; [|split; [|split]].
  - intros Hne. destruct zs as [|z zs']; [congruence|].
    rewrite (zip_shift_0 _ _ fs (Float64.of_Z z)) by reflexivity.
    now rewrite growth_cell_first.
  - intros i c Hp Hx.
    rewrite (zip_shift_S _ _ fs i _ _ (as_floats_counts _ _ _ Hp) (as_floats_counts _ _ _ Hx)).
    rewrite growth_cell_zero_before; [reflexivity|].
    rewrite Forall_lookup in Hpos. exact (Hpos _ _ Hx).
  - intros i p c Hp Hne Hx.
    rewrite (zip_shift_S _ _ fs i _ _ (as_floats_counts _ _ _ Hp) (as_floats_counts _ _ _ Hx)).
    destruct (growth_cell_finite c p Hne) as [q [-> Hq]]. now exists q.
  - generalize (shift NaN fs). generalize fs. clear.
    induction fs as [|x l IH]; intros [|p k]; simpl; constructor.
    + apply growth_cell_not_nan.
    + apply IH.
Qed.


End GrowthFacts.

(** C2.  A row with confirmed cases that follows a row without any: the
    specification has 0 in [growth_rate] there and no infinity anywhere in
    the column; the function leaves plus infinity (also in
    [growth_rate_pct]), since line 74 fills the missing values only, while
    line 77 does replace the infinities of the doubling time. *)
Theorem growth_rate_is_infinite_after_zero :
  let t := [ ("date", SDate [Some 0; Some 1]);
             ("total_confirmed_cases", SInt [Some 0; Some 5]) ] in
  let out := calculate_growth_metrics Sample.ln_1 1%nat {[ 1%nat := t ]} in
  fst out = inr 1%nat
  /\ (fun t' => (select t' "growth_rate", select t' "growth_rate_pct",
                 select t' "doubling_time_days")) <$> snd out !! 1%nat
     = Some ([SFloat [Fin 0; PInf]], [SFloat [Fin 0; PInf]],
             [SFloat [Fin 0; Fin 0]]).
Proof. split; vm_compute; reflexivity. Qed.

(** ** [calculate_rates] on a table with its three count columns *)

Lemma rates_run df (h : heap) t d c r :
  h !! df = Some t ->
  select t "total_deaths" = [series_of d] ->
  select t "total_confirmed_cases" = [series_of c] ->
  select t "total_recovered" = [series_of r] ->
  at_most_once t rate_columns ->
  exists t',
    calculate_rates df h = (inr df, <[df := t']> h)
    /\ select t' "cfr" = [series_of (truediv d c)]
    /\ select t' "recovery_rate" = [series_of (truediv r c)]
    /\ select t' "cfr_pct" = [series_of (mul_int (truediv d c) 100)]
    /\ select t' "recovery_rate_pct" = [series_of (mul_int (truediv r c) 100)]
    /\ forall k, ~ In k rate_columns -> select t' k = select t k.
Proof.
  intros Hh Hd Hc Hr Hm.
  set (t1 := assign t "cfr" (series_of (truediv d c))).
  set (t2 := assign t1 "recovery_rate" (series_of (truediv r c))).
  set (t3 := assign t2 "cfr_pct" (series_of (mul_int (truediv d c) 100))).
  set (t4 := assign t3 "recovery_rate_pct" (series_of (mul_int (truediv r c) 100))).
  assert (at_most_once t1 rate_columns) as Hm1 by now apply at_most_once_assign.
  assert (at_most_once t2 rate_columns) as Hm2 by now apply at_most_once_assign.
  assert (at_most_once t3 rate_columns) as Hm3 by now apply at_most_once_assign.
  assert (select t1 "cfr" = [series_of (truediv d c)]) as Hf1
    by (apply select_assign_one, Hm; simpl; tauto).
  assert (select t2 "recovery_rate" = [series_of (truediv r c)]) as Hr2
    by (apply select_assign_one, Hm1; simpl; tauto).
  exists t4. split; [|repeat split].
  - unfold calculate_rates.
    rewrite (py_read_then _ _ _ h t d Hh Hd), (py_read_then _ _ _ h t c Hh Hc).
    rewrite (py_assign_then _ _ _ _ h t Hh).
    fold t1. set (h1 := <[df:=t1]> h).
    assert (h1 !! df = Some t1) as Hh1 by apply lookup_insert_eq.
    rewrite (py_read_then _ _ _ h1 t1 r Hh1) by (unfold t1; now other_label).
    rewrite (py_read_then _ _ _ h1 t1 c Hh1) by (unfold t1; now other_label).
    rewrite (py_assign_then _ _ _ _ h1 t1 Hh1).
    fold t2. set (h2 := <[df:=t2]> h1).
    assert (h2 !! df = Some t2) as Hh2 by apply lookup_insert_eq.
    rewrite (py_read_then _ _ _ h2 t2 (truediv d c) Hh2)
      by (unfold t2; now other_label).
    rewrite (py_assign_then _ _ _ _ h2 t2 Hh2).
    fold t3. set (h3 := <[df:=t3]> h2).
    assert (h3 !! df = Some t3) as Hh3 by apply lookup_insert_eq.
    rewrite (py_read_then _ _ _ h3 t3 (truediv r c) Hh3)
      by (unfold t3; now other_label).
    rewrite (py_assign_then _ _ _ _ h3 t3 Hh3).
    fold t4. unfold h3, h2, h1. now rewrite !insert_insert_eq.
  - unfold t4, t3, t2. now other_label.
  - unfold t4, t3. now other_label.
  - unfold t4. other_label. apply select_assign_one, Hm2. simpl; tauto.
  - apply select_assign_one, Hm3. simpl; tauto.
  - intros k Hk. unfold t4, t3, t2, t1.
    rewrite !select_assign_other; [reflexivity| | | |];
      intros <-; apply Hk; simpl; tauto.
Qed.

(** A count over a count of zero. *)
Lemma rate_of_zero_cases d :
  0 <= d ->
  Float64.div (Float64.of_Z d) (Float64.of_Z 0) = if d =? 0 then NaN else PInf.
Proof.
  intros Hd. unfold Float64.of_Z, Float64.div. rewrite !Qsign_inject_Z.
  change (0 ?= 0) with Eq. cbv iota.
  destruct (Z.eqb_spec d 0) as [-> | Hne]; [reflexivity|].
  assert ((d ?= 0) = Gt) as -> by (apply Z.compare_gt_iff; lia).
  reflexivity.
Qed.

Lemma percent_of_undefined d :
  Float64.mul (if d =? 0 then NaN else PInf) (Float64.of_Z 100)
  = if d =? 0 then NaN else PInf.
Proof. now destruct (d =? 0). Qed.

Lemma rate_cells_of_zero_cases ds zs i d :
  Forall (fun z => 0 <= z) ds ->
  ds !! i = Some d -> zs !! i = Some 0 ->
  let rate := zip_with Float64.div (as_floats (Ints (map Some ds)))
                                   (as_floats (Ints (map Some zs))) in
  rate !! i = Some (if d =? 0 then NaN else PInf)
  /\ map (fun x => Float64.mul x (Float64.of_Z 100)) rate !! i
     = Some (if d =? 0 then NaN else PInf).
Proof.
  intros Hpos Hd Hz rate.
  assert (rate !! i = Some (if d =? 0 then NaN else PInf)) as Hrate.
  { unfold rate. rewrite lookup_zip_with.
    rewrite (as_floats_counts _ _ _ Hd), (as_floats_counts _ _ _ Hz).
    cbn [mbind option_bind]. rewrite rate_of_zero_cases; [reflexivity|].
    rewrite Forall_lookup in Hpos. exact (Hpos _ _ Hd). }
  split; [exact Hrate|].
  rewrite lookup_map, Hrate. cbn [fmap option_fmap option_map].
  now rewrite percent_of_undefined.
Qed.

(** C3 as it is written does not hold: in a row without confirmed cases the
    four rates are NaN, not 0. *)
Lemma rates_of_zero_cases_are_nan :
  let t := [ ("date", SDate [Some 0; Some 1]);
             ("total_confirmed_cases", SInt [Some 0; Some 10]);
             ("total_deaths", SInt [Some 0; Some 1]);
             ("total_recovered", SInt [Some 0; Some 2]) ] in
  let out := calculate_rates 1%nat {[ 1%nat := t ]} in
  fst out = inr 1%nat
  /\ (fun t' => (select t' "cfr", select t' "cfr_pct",
                 select t' "recovery_rate", select t' "recovery_rate_pct"))
       <$> snd out !! 1%nat
     = Some ([SFloat [NaN; Fin (1 # 10)]], [SFloat [NaN; Fin 10]],
             [SFloat [NaN; Fin (1 # 5)]], [SFloat [NaN; Fin 20]]).
Proof. split; vm_compute; reflexivity. Qed.

(** C3, amended.  On a table whose deaths, confirmed cases and recoveries
    are counts, a row without confirmed cases is not set to 0: [cfr] and
    [cfr_pct] are NaN when the row has no death and plus infinity when it
    has, and so are [recovery_rate] and [recovery_rate_pct] with the
    recoveries. *)
Theorem rates_of_zero_cases df (h : heap) t ds zs rs :
  h !! df = Some t ->
  counts t "total_deaths" ds ->
  counts t "total_confirmed_cases" zs ->
  counts t "total_recovered" rs ->
  at_most_once t rate_columns ->
  exists t' cfr cfr_pct rec rec_pct,
    calculate_rates df h = (inr df, <[df := t']> h)
    /\ select t' "cfr" = [SFloat cfr] /\ select t' "cfr_pct" = [SFloat cfr_pct]
    /\ select t' "recovery_rate" = [SFloat rec]
    /\ select t' "recovery_rate_pct" = [SFloat rec_pct]
    /\ forall i d r,
         zs !! i = Some 0 -> ds !! i = Some d -> rs !! i = Some r ->
         cfr !! i = Some (if d =? 0 then NaN else PInf)
         /\ cfr_pct !! i = Some (if d =? 0 then NaN else PInf)
         /\ rec !! i = Some (if r =? 0 then NaN else PInf)
         /\ rec_pct !! i = Some (if r =? 0 then NaN else PInf).
Proof.
  intros Hh [Hd Hdpos] [Hc _] [Hr Hrpos] Hm.
  destruct (rates_run df h t (Ints (map Some ds)) (Ints (map Some zs))
              (Ints (map Some rs)) Hh Hd Hc Hr Hm)
    as (t' & Hrun & Hcfr & Hrec & Hcfrp & Hrecp & _).
  eexists t', _, _, _, _.
  split; [exact Hrun|]. split; [exact Hcfr|]. split; [exact Hcfrp|].
  split; [exact Hrec|]. split; [exact Hrecp|].
  intros i d r Hz Hdi Hri.
  destruct (rate_cells_of_zero_cases ds zs i d Hdpos Hdi Hz) as [H1 H2].
  destruct (rate_cells_of_zero_cases rs zs i r Hrpos Hri Hz) as [H3 H4].
  now repeat split.
Qed.

(** ** What the two functions write *)

Section Footprint.

Variable df : ref.
Variable ks : list string.

Lemma in_place_refl (h : heap) : in_place df ks h h.
Proof. repeat split; auto. intros t Ht. now exists t. Qed.

Lemma in_place_trans (h1 h2 h3 : heap) :
  in_place df ks h1 h2 -> in_place df ks h2 h3 -> in_place df ks h1 h3.
Proof.
  intros (Ha & Hn & Ht) (Ha' & Hn' & Ht'). repeat split.
  - intros r Hr. now rewrite Ha', Ha.
  - intros H. auto.
  - intros t H. destruct (Ht t H) as (t2 & H2 & Hk2).
    destruct (Ht' t2 H2) as (t3 & H3 & Hk3).
    exists t3. split; [exact H3|]. intros k Hk. now rewrite Hk3, Hk2.
Qed.

Lemma footprint_ret {A : Type} (x : A) : footprint df ks (mret x).
Proof. intros h res h' H. inversion H; subst. apply in_place_refl. Qed.

Lemma footprint_bind {A B : Type} (m : Py A) (f : A -> Py B) :
  footprint df ks m -> (forall x, footprint df ks (f x)) -> footprint df ks (m ≫= f).
Proof.
  intros Hm Hf h res h' H. unfold mbind, py_bind in H.
  destruct (m h) as [[e|x] h1] eqn:E.
  - inversion H; subst. exact (Hm _ _ _ E).
  - exact (in_place_trans _ _ _ (Hm _ _ _ E) (Hf _ _ _ _ H)).
Qed.

Lemma footprint_getitem k : footprint df ks (py_getitem df k).
Proof.
  intros h res h' H. unfold py_getitem in H.
  destruct (h !! df); inversion H; subst; apply in_place_refl.
Qed.

Lemma footprint_setitem k n : In k ks -> footprint df ks (py_setitem df k n).
Proof.
  intros Hk h res h' H. unfold py_setitem in H.
  destruct (h !! df) as [t|] eqn:E; inversion H; subst; [|apply in_place_refl].
  repeat split.
  - intros r Hr. now rewrite lookup_insert_ne.
  - congruence.
  - intros t0 Ht0. rewrite E in Ht0. inversion Ht0; subst t0.
    eexists. split; [apply lookup_insert_eq|].
    intros k' Hk'. apply select_assign_other. intros ->. contradiction.
Qed.

End Footprint.

Ltac footprint_steps :=
  repeat first
    [ apply footprint_ret
    | apply footprint_getitem
    | apply footprint_setitem; simpl; tauto
    | apply footprint_bind; [|intros ?] ].

Lemma growth_footprint ln df (h : heap) res h' :
  calculate_growth_metrics ln df h = (res, h') -> in_place df growth_columns h h'.
Proof.
  revert h res h'. change (footprint df growth_columns (calculate_growth_metrics ln df)).
  unfold calculate_growth_metrics. footprint_steps.
Qed.

Lemma rates_footprint df (h : heap) res h' :
  calculate_rates df h = (res, h') -> in_place df rate_columns h h'.
Proof.
  revert h res h'. change (footprint df rate_columns (calculate_rates df)).
  unfold calculate_rates. footprint_steps.
Qed.

Lemma returns_ret {A : Type} (x : A) : returns x (mret x).
Proof. intros h y h' H. now inversion H. Qed.

Lemma returns_bind {A B : Type} (y : B) (m : Py A) (f : A -> Py B) :
  (forall x, returns y (f x)) -> returns y (m ≫= f).
Proof.
  intros Hf h z h' H. unfold mbind, py_bind in H.
  destruct (m h) as [[e|x] h1]; [discriminate|]. exact (Hf _ _ _ _ H).
Qed.

Lemma growth_returns ln df : returns df (calculate_growth_metrics ln df).
Proof.
  unfold calculate_growth_metrics.
  repeat (apply returns_bind; intros ?). apply returns_ret.
Qed.

Lemma rates_returns df : returns df (calculate_rates df).
Proof.
  unfold calculate_rates.
  repeat (apply returns_bind; intros ?). apply returns_ret.
Qed.

Lemma source_labels_not_derived k :
  k = "date" \/ In k numeric_cols -> ~ In k growth_columns /\ ~ In k rate_columns.
Proof.
  intros [-> | Hk]; [split; simpl; intuition discriminate|].
  simpl in Hk. decompose [or] Hk; subst; try contradiction;
    split; simpl; intuition discriminate.
Qed.

(** The two calls of the advanced view, one after the other, on a table
    with its three count columns: both run to their end and leave each
    derived label on one column of the table they were given. *)
Lemma metrics_run ln df (h : heap) t ds zs rs :
  h !! df = Some t ->
  counts t "total_deaths" ds ->
  counts t "total_confirmed_cases" zs ->
  counts t "total_recovered" rs ->
  at_most_once t (growth_columns ++ rate_columns) ->
  exists t',
    (calculate_growth_metrics ln df ≫= calculate_rates) h = (inr df, <[df := t']> h)
    /\ (forall k, In k (growth_columns ++ rate_columns) -> length (select t' k) = 1%nat)
    /\ (forall k, ~ In k (growth_columns ++ rate_columns) -> select t' k = select t k).
Proof.
  intros Hh [Hd _] [Hc _] [Hr _] Hm.
  assert (at_most_once t growth_columns) as Hmg
    by (intros k Hk; apply Hm, in_or_app; now left).
  assert (at_most_once t rate_columns) as Hmr
    by (intros k Hk; apply Hm, in_or_app; now right).
  destruct (growth_run ln df h t (Ints (map Some zs)) Hh Hc Hmg)
    as (t1 & Hrun1 & Hg1 & Hg2 & Hg3 & Hg4 & Hother1).
  assert (forall k, In k rate_columns \/ In k numeric_cols -> ~ In k growth_columns)
    as Hsep.
  { intros k [Hk | Hk]; simpl in Hk; decompose [or] Hk; subst; try contradiction;
      simpl; intuition discriminate. }
  assert (at_most_once t1 rate_columns) as Hmr1.
  { intros k Hk. rewrite Hother1 by (apply Hsep; now left). now apply Hmr. }
  destruct (rates_run df (<[df := t1]> h) t1 (Ints (map Some ds)) (Ints (map Some zs))
              (Ints (map Some rs))) as (t2 & Hrun2 & Hr1 & Hr2 & Hr3 & Hr4 & Hother2);
    try (rewrite Hother1 by (apply Hsep; right; simpl; tauto); assumption);
    [apply lookup_insert_eq | exact Hmr1 |].
  exists t2. split; [|split].
  - rewrite (py_bind_run _ _ _ _ _ Hrun1), Hrun2. now rewrite insert_insert_eq.
  - intros k Hk. apply in_app_or in Hk as [Hk | Hk].
    + rewrite Hother2.
      * simpl in Hk. decompose [or] Hk; subst; try contradiction;
          rewrite ?Hg1, ?Hg2, ?Hg3, ?Hg4; reflexivity.
      * simpl in Hk. decompose [or] Hk; subst; try contradiction;
          simpl; intuition discriminate.
    + simpl in Hk. decompose [or] Hk; subst; try contradiction;
        rewrite ?Hr1, ?Hr2, ?Hr3, ?Hr4; reflexivity.
  - intros k Hk. rewrite Hother2, Hother1; [reflexivity | |];
      intros Hin; apply Hk, in_or_app; tauto.
Qed.

(** C7 as it is written does not hold: the table that comes back is the
    table that went in, which now has four more columns; no second table
    was made. *)
Lemma growth_metrics_write_to_their_argument :
  let t := [ ("date", SDate [Some 0; Some 1]);
             ("total_confirmed_cases", SInt [Some 100; Some 150]) ] in
  let h : heap := {[ 1%nat := t ]} in
  let out := calculate_growth_metrics Sample.ln_1 1%nat h in
  fst out = inr 1%nat
  /\ columns <$> snd out !! 1%nat
     = Some [ "date"; "total_confirmed_cases"; "daily_change"; "growth_rate";
              "growth_rate_pct"; "doubling_time_days" ]
  /\ snd out !! 1%nat <> h !! 1%nat
  /\ size (snd out) = 1%nat.
Proof.
  split; [vm_compute; reflexivity|]. split; [vm_compute; reflexivity|].
  split; [|vm_compute; reflexivity].
  vm_compute. discriminate.
Qed.

(** C7, amended.  Each of the two functions returns the table it was given
    and no other, writes to no other table, and in its table writes only
    under the labels of its own derived columns: the date column and the
    six count columns are what they were.  On a table with its count
    columns the two calls succeed, and the table they were given then
    carries the eight derived columns: it is augmented in place. *)
Theorem metrics_update_in_place ln df (h : heap) :
  (forall res h',
     calculate_growth_metrics ln df h = (res, h') ->
     (forall x, res = inr x -> x = df) /\ in_place df growth_columns h h')
  /\ (forall res h',
        calculate_rates df h = (res, h') ->
        (forall x, res = inr x -> x = df) /\ in_place df rate_columns h h')
  /\ (forall k, k = "date" \/ In k numeric_cols ->
        ~ In k growth_columns /\ ~ In k rate_columns)
  /\ (forall t ds zs rs,
        h !! df = Some t ->
        counts t "total_deaths" ds ->
        counts t "total_confirmed_cases" zs ->
        counts t "total_recovered" rs ->
        at_most_once t (growth_columns ++ rate_columns) ->
        exists t',
          (calculate_growth_metrics ln df ≫= calculate_rates) h
          = (inr df, <[df := t']> h)
          /\ (forall k, In k (growth_columns ++ rate_columns) ->
                length (select t' k) = 1%nat)
          /\ (forall k, ~ In k (growth_columns ++ rate_columns) ->
                select t' k = select t k)).
Proof.
  split; [|split; [|split; [exact source_labels_not_derived | apply metrics_run]]].
  - intros res h' H. split; [|now apply growth_footprint in H].
    intros x ->. exact (growth_returns ln df _ _ _ H).
  - intros res h' H. split; [|now apply rates_footprint in H].
    intros x ->. exact (rates_returns df _ _ _ H).
Qed.

(** ** The statements at sample inputs *)




Lemma rename_keeps_both_aliases_witness :
  let raw := [ ("Date", SObj ["2021-01-01"]);
               ("TotalCases", SObj ["10"]);
               ("Confirmed", SObj ["12"]) ] in
  In "total_confirmed_cases" numeric_cols
  /\ (2 <= length (select (relabel raw) "total_confirmed_cases"))%nat
  /\ (load_data Sample.iso_date Sample.render_blank (Some raw) = DateColumnNotFound
      \/ exists e, load_data Sample.iso_date Sample.render_blank (Some raw)
                   = DataLoadingFailed e).
Proof.
  intros raw.
  assert (In "total_confirmed_cases" numeric_cols) as H1 by (simpl; tauto).
  assert (2 <= length (select (relabel raw) "total_confirmed_cases"))%nat as H2
    by (vm_compute; lia).
  split; [exact H1|]. split; [exact H2|].
  exact (proj1 (proj2 (rename_keeps_both_aliases Sample.iso_date Sample.render_blank))
               raw "total_confirmed_cases" H1 H2).
Defined.

Ltac sample_counts := split; [reflexivity | repeat constructor; lia].

Ltac sample_once :=
  let k := fresh "k" in
  let Hk := fresh "Hk" in
  intros k Hk; simpl in Hk; decompose [or] Hk; subst; try contradiction;
  vm_compute; lia.


Lemma rates_of_zero_cases_witness :
  let t := [ ("date", SDate [Some 0; Some 1; Some 2; Some 3]);
             ("total_confirmed_cases", SInt [Some 0; Some 0; Some 100; Some 150]);
             ("total_deaths", SInt [Some 0; Some 1; Some 2; Some 3]);
             ("total_recovered", SInt [Some 0; Some 0; Some 50; Some 70]) ] in
  let h : heap := {[ 7%nat := t ]} in
  h !! 7%nat = Some t
  /\ counts t "total_deaths" [0; 1; 2; 3]
  /\ counts t "total_confirmed_cases" [0; 0; 100; 150]
  /\ counts t "total_recovered" [0; 0; 50; 70]
  /\ at_most_once t rate_columns
  /\ exists t' cfr cfr_pct rec rec_pct,
       calculate_rates 7%nat h = (inr 7%nat, <[7%nat := t']> h)
       /\ select t' "cfr" = [SFloat cfr] /\ select t' "cfr_pct" = [SFloat cfr_pct]
       /\ select t' "recovery_rate" = [SFloat rec]
       /\ select t' "recovery_rate_pct" = [SFloat rec_pct]
       /\ forall i d r,
            [0; 0; 100; 150] !! i = Some 0 ->
            [0; 1; 2; 3] !! i = Some d -> [0; 0; 50; 70] !! i = Some r ->
            cfr !! i = Some (if d =? 0 then NaN else PInf)
            /\ cfr_pct !! i = Some (if d =? 0 then NaN else PInf)
            /\ rec !! i = Some (if r =? 0 then NaN else PInf)
            /\ rec_pct !! i = Some (if r =? 0 then NaN else PInf).
Proof.
  intros t h.
  assert (h !! 7%nat = Some t) as Hh by (vm_compute; reflexivity).
  assert (counts t "total_deaths" [0; 1; 2; 3]) as Hd by sample_counts.
  assert (counts t "total_confirmed_cases" [0; 0; 100; 150]) as Hc by sample_counts.
  assert (counts t "total_recovered" [0; 0; 50; 70]) as Hr by sample_counts.
  assert (at_most_once t rate_columns) as Hm by sample_once.
  split; [exact Hh|]. split; [exact Hd|]. split; [exact Hc|]. split; [exact Hr|].
  split; [exact Hm|].
  exact (rates_of_zero_cases 7%nat h t _ _ _ Hh Hd Hc Hr Hm).
Defined.

Lemma metrics_update_in_place_witness :
  let t := [ ("date", SDate [Some 0; Some 1]);
             ("total_confirmed_cases", SInt [Some 100; Some 150]);
             ("total_deaths", SInt [Some 2; Some 3]);
             ("total_recovered", SInt [Some 50; Some 70]) ] in
  let h : heap := {[ 7%nat := t ]} in
  let out := calculate_growth_metrics Sample.ln_1 7%nat h in
  calculate_growth_metrics Sample.ln_1 7%nat h = (fst out, snd out)
  /\ h !! 7%nat = Some t
  /\ counts t "total_deaths" [2; 3]
  /\ counts t "total_confirmed_cases" [100; 150]
  /\ counts t "total_recovered" [50; 70]
  /\ at_most_once t (growth_columns ++ rate_columns)
  /\ ((forall x, fst out = inr x -> x = 7%nat)
      /\ in_place 7%nat growth_columns h (snd out))
  /\ exists t',
       (calculate_growth_metrics Sample.ln_1 7%nat ≫= calculate_rates) h
       = (inr 7%nat, <[7%nat := t']> h)
       /\ (forall k, In k (growth_columns ++ rate_columns) ->
             length (select t' k) = 1%nat)
       /\ (forall k, ~ In k (growth_columns ++ rate_columns) ->
             select t' k = select t k).
Proof.
  intros t h out.
  assert (calculate_growth_metrics Sample.ln_1 7%nat h = (fst out, snd out)) as H
    by (unfold out; now destruct (calculate_growth_metrics Sample.ln_1 7%nat h)).
  assert (h !! 7%nat = Some t) as Hh by (vm_compute; reflexivity).
  assert (counts t "total_deaths" [2; 3]) as Hd by sample_counts.
  assert (counts t "total_confirmed_cases" [100; 150]) as Hc by sample_counts.
  assert (counts t "total_recovered" [50; 70]) as Hr by sample_counts.
  assert (at_most_once t (growth_columns ++ rate_columns)) as Hm by sample_once.
  pose proof (metrics_update_in_place Sample.ln_1 7%nat h) as (Hg & _ & _ & Hrun).
  split; [exact H|]. split; [exact Hh|]. split; [exact Hd|]. split; [exact Hc|].
  split; [exact Hr|]. split; [exact Hm|].
  split; [exact (Hg (fst out) (snd out) H)|].
  exact (Hrun t _ _ _ Hh Hd Hc Hr Hm).
Defined.

(** * More about [load_data] *)

(** ** The labels of the loaded table *)

Lemma columns_map_values (g : Series -> Series) df :
  columns (map (fun p => (fst p, g (snd p))) df) = columns df.
Proof. unfold columns. rewrite map_map. now apply map_ext. Qed.

Lemma columns_assign df k s :
  has_column df k = true -> columns (assign df k s) = columns df.
Proof.
  intros H. unfold assign, columns. rewrite H, map_map. apply map_ext.
  intros [k' s']. cbn [fst]. now destruct (String.eqb k k').
Qed.

Lemma clean_column_columns render df c df' :
  clean_column render df c = inr df' -> columns df' = columns df.
Proof.
  unfold clean_column. destruct (has_column df c) eqn:E; [|now intros [= <-]].
  intros H. apply exn_bind_inv in H as [it [_ H]].
  destruct it as [s|cols]; [|discriminate].
  apply exn_bind_inv in H as [counts [_ H]]. inversion H; subst.
  now apply columns_assign.
Qed.

Lemma clean_columns_columns render cols : forall df df',
  clean_columns render cols df = inr df' -> columns df' = columns df.
Proof.
  induction cols as [|c rest IH]; intros df df' H; [now inversion H|].
  cbn [clean_columns] in H. apply exn_bind_inv in H as [df1 [H1 H2]].
  apply IH in H2. apply clean_column_columns in H1. congruence.
Qed.

Lemma columns_relabel raw :
  columns (relabel raw) = map (fun k => rename_label (normalize k)) (columns raw).
Proof. unfold relabel, set_columns, columns. now rewrite !map_map. Qed.

(** X1.  The table [load_data] returns has a column for every column of the
    file and no other, in the order of the file, each under its normalized
    and renamed label. *)
Theorem load_data_columns parse_date render raw df :
  load_data parse_date render (Some raw) = Table df ->
  columns df = map (fun k => rename_label (normalize k)) (columns raw).
Proof.
  intros H.
  apply load_data_Table in H as (f & s & dates & ds & _ & Hs & _ & _ & Hc).
  apply clean_columns_columns in Hc. rewrite Hc, columns_map_values.
  rewrite columns_assign by (apply has_column_true; congruence).
  apply columns_relabel.
Qed.

Lemma load_data_columns_witness :
  let raw := [ (" New Cases ", SObj ["7"; "9"]);
               ("Date", SObj ["2021-01-02"; "2021-01-01"]);
               ("Country/Region", SObj ["Ghana"; "Ghana"]) ] in
  exists df,
    load_data Sample.iso_date Sample.render_blank (Some raw) = Table df
    /\ columns df = ["daily_confirmed_cases"; "date"; "country_region"].
Proof.
  intros raw. eexists. split; [vm_compute; reflexivity|].
  apply (load_data_columns Sample.iso_date Sample.render_blank raw).
  vm_compute. reflexivity.
Defined.

(** ** The rows of the loaded table *)

Lemma take_mask_map {A B : Type} (g : A -> B) (m : list bool) (l : list A) :
  take_mask m (map g l) = map g (take_mask m l).
Proof.
  revert l. induction m as [|b m IH]; intros [|x l]; simpl; try reflexivity.
  destruct b; simpl; now rewrite IH.
Qed.

Lemma combine_map_r {K A B : Type} (g : A -> B) (ks : list K) (l : list A) :
  combine ks (map g l) = map (fun p => (fst p, g (snd p))) (combine ks l).
Proof.
  revert l. induction ks as [|k ks IH]; intros [|x l]; simpl; try reflexivity.
  now rewrite IH.
Qed.

Section SortNatural.

Context {K A B : Type} (leb : K -> K -> bool) (g : A -> B).

Let lift (p : K * A) : K * B := (fst p, g (snd p)).

Lemma insert_row_map x l :
  insert_row leb (lift x) (map lift l) = map lift (insert_row leb x l).
Proof.
  induction l as [|y t IH]; simpl; [reflexivity|].
  destruct (leb (fst x) (fst y)); simpl; [reflexivity | now rewrite IH].
Qed.

Lemma sort_rows_map l : sort_rows leb (map lift l) = map lift (sort_rows leb l).
Proof.
  induction l as [|x t IH]; simpl; [reflexivity|].
  now rewrite IH, insert_row_map.
Qed.

Lemma order_by_map ks l :
  order_by leb ks B (map g l) = map g (order_by leb ks A l).
Proof.
  unfold order_by. rewrite combine_map_r. fold lift. rewrite sort_rows_map.
  rewrite !map_map. reflexivity.
Qed.

End SortNatural.

Lemma kept_rows_map {A B : Type} (g : A -> B) dates l :
  kept_rows dates B (map g l) = map g (kept_rows dates A l).
Proof. unfold kept_rows. now rewrite take_mask_map, order_by_map. Qed.

Lemma kept_rows_Forall {A : Type} (P : A -> Prop) dates l :
  Forall P l -> Forall P (kept_rows dates A l).
Proof. intros H. unfold kept_rows. now apply order_by_Forall, take_mask_Forall. Qed.

Section SortPermutation.

Context {K A : Type} (leb : K -> K -> bool).

Lemma insert_row_perm (x : K * A) l : Permutation (insert_row leb x l) (x :: l).
Proof.
  induction l as [|y t IH]; simpl; [reflexivity|].
  destruct (leb (fst x) (fst y)); [reflexivity|].
  rewrite IH. apply perm_swap.
Qed.

Lemma sort_rows_perm (l : list (K * A)) : Permutation (sort_rows leb l) l.
Proof.
  induction l as [|x t IH]; simpl; [reflexivity|].
  rewrite insert_row_perm. now constructor.
Qed.

End SortPermutation.

Lemma take_mask_length {A B : Type} (m : list bool) (l : list A) (l' : list B) :
  length l = length l' -> length (take_mask m l) = length (take_mask m l').
Proof.
  revert l l'. induction m as [|b m IH]; intros [|x l] [|y l'] H; simpl in *;
    try reflexivity; try discriminate.
  destruct b; simpl; rewrite (IH l l'); auto.
Qed.

Lemma take_mask_count {A : Type} (m : list bool) (l : list A) :
  length l = length m ->
  length (take_mask m l) = length (List.filter (fun b => b) m).
Proof.
  revert l. induction m as [|b m IH]; intros [|x l] H; simpl in *;
    try reflexivity; try discriminate.
  destruct b; simpl; rewrite IH; auto.
Qed.

Lemma map_snd_combine {A B : Type} (ks : list A) (l : list B) :
  (length l <= length ks)%nat -> map snd (combine ks l) = l.
Proof.
  revert l. induction ks as [|k ks IH]; intros [|x l] H; simpl in *;
    try reflexivity; try lia.
  rewrite IH; [reflexivity | lia].
Qed.

(** The rows kept, as a permutation of the rows the mask lets through. *)
Lemma kept_rows_perm {A : Type} dates (l : list A) :
  length l = length dates ->
  Permutation (kept_rows dates A l) (take_mask (map present dates) l).
Proof.
  intros H. unfold kept_rows, order_by.
  rewrite (sort_rows_perm na_last_leb). rewrite map_snd_combine; [reflexivity|].
  apply Nat.eq_le_incl, take_mask_length. congruence.
Qed.

Lemma take_mask_seq (m : list bool) : forall a i,
  In i (take_mask m (seq a (length m)))
  <-> (a <= i)%nat /\ m !! (i - a)%nat = Some true.
Proof.
  induction m as [|b m IH]; intros a i; cbn [length seq take_mask].
  - split; [intros [] | intros [_ H]; discriminate].
  - destruct (lt_eq_lt_dec i a) as [[Hlt | ->] | Hgt].
    + split; [|intros [H _]; lia].
      destruct b; cbn [In]; rewrite IH; intros H.
      * destruct H as [H | [H _]]; lia.
      * destruct H as [H _]. lia.
    + replace (a - a)%nat with 0%nat by lia. cbn [lookup list_lookup].
      destruct b; cbn [In]; rewrite ?IH; split; intros H.
      * split; [lia | reflexivity].
      * now left.
      * destruct H as [H _]. lia.
      * destruct H as [_ H]. discriminate.
    + replace (i - a)%nat with (S (i - S a)) by lia. cbn [lookup list_lookup].
      destruct b; cbn [In]; rewrite IH; split; intros H.
      * destruct H as [H | [_ H]]; [lia|]. split; [lia | exact H].
      * right. destruct H as [_ H]. split; [lia | exact H].
      * destruct H as [_ H]. split; [lia | exact H].
      * destruct H as [_ H]. split; [lia | exact H].
Qed.

Lemma take_mask_seq_NoDup (m : list bool) : forall a,
  List.NoDup (take_mask m (seq a (length m))).
Proof.
  induction m as [|b m IH]; intros a; simpl; [constructor|].
  destruct b; [|apply IH]. constructor; [|apply IH].
  rewrite take_mask_seq. lia.
Qed.

Lemma lookup_present_mask (dates : list (option Z)) i :
  map present dates !! i = Some true <-> exists d, dates !! i = Some (Some d).
Proof.
  rewrite lookup_map. destruct (dates !! i) as [[d|]|]; simpl; split;
    intros H; try discriminate; eauto; destruct H as [d' H]; discriminate.
Qed.

(** The positions of the rows that [load_data] keeps, in the order it puts
    them. *)
Lemma kept_positions dates :
  let idx := kept_rows dates nat (seq 0 (length dates)) in
  List.NoDup idx
  /\ (forall i, In i idx <-> exists d, dates !! i = Some (Some d))
  /\ length idx = length (List.filter (fun b => b) (map present dates)).
Proof.
  intros idx.
  assert (Permutation idx (take_mask (map present dates) (seq 0 (length dates)))) as Hp
    by (apply kept_rows_perm; now rewrite length_seq).
  assert (length (map present dates) = length dates) as Hl by apply length_map.
  split; [|split].
  - eapply Permutation_NoDup; [symmetry; exact Hp|].
    rewrite <- Hl. apply take_mask_seq_NoDup.
  - intros i. rewrite <- lookup_present_mask.
    split.
    + intros H. eapply Permutation_in in H; [|exact Hp].
      rewrite <- Hl in H. apply take_mask_seq in H as [_ H].
      now replace (i - 0)%nat with i in H by lia.
    + intros H. eapply Permutation_in; [symmetry; exact Hp|].
      rewrite <- Hl. apply take_mask_seq. split; [lia|].
      now replace (i - 0)%nat with i by lia.
  - rewrite (Permutation_length Hp). apply take_mask_count.
    now rewrite length_seq, length_map.
Qed.

Lemma take_rows_map {A : Type} (d : A) (l : list A) idx :
  Forall (fun i => (i < length l)%nat) idx ->
  take_rows idx A l = map (fun i => nth i l d) idx.
Proof.
  unfold take_rows. induction 1 as [|i idx Hi Hidx IH]; [reflexivity|].
  cbn [omap list_omap map]. fold (omap (fun i => l !! i) idx). rewrite IH.
  destruct (l !! i) eqn:E.
  - f_equal. symmetry. apply nth_lookup_Some with (d := d) in E. exact E.
  - apply lookup_ge_None in E. lia.
Qed.

Lemma map_nth_seq {A : Type} (d : A) (l : list A) :
  map (fun i => nth i l d) (seq 0 (length l)) = l.
Proof.
  apply list_eq. intros i. rewrite lookup_map.
  destruct (le_lt_dec (length l) i) as [H | H].
  - rewrite (proj2 (lookup_ge_None l i) H).
    now rewrite (proj2 (lookup_ge_None _ i)) by (rewrite length_seq; lia).
  - rewrite lookup_seq_lt by lia. simpl.
    destruct (lookup_lt_is_Some_2 l i H) as [x Hx]. rewrite Hx.
    f_equal. now apply nth_lookup_Some.
Qed.

(** Every column is cut down and reordered by the same positions. *)
Lemma kept_rows_positions {A : Type} dates (l : list A) :
  length l = length dates ->
  kept_rows dates A l = take_rows (kept_rows dates nat (seq 0 (length dates))) A l.
Proof.
  intros H. destruct l as [|d l'] eqn:E.
  - simpl in H. rewrite <- H. destruct dates; [reflexivity | discriminate].
  - rewrite <- E in *. clear E l'.
    rewrite (take_rows_map d).
    + rewrite <- kept_rows_map, <- H. now rewrite map_nth_seq.
    + apply kept_rows_Forall. rewrite H.
      apply List.Forall_forall. intros i Hi. apply in_seq in Hi. lia.
Qed.

Section LoaderRows.

Variable parse_date : string -> option Z.
Variable render : Series -> list string.

(** The date step with the choice of rows written out. *)
Lemma parse_dates_kept df s dates :
  select df "date" = [s] ->
  to_datetime parse_date (Column s) = inr (SDate dates) ->
  parse_dates parse_date df
  = inr (map (fun p => (fst p, on_rows (kept_rows dates) (snd p)))
             (assign df "date" (SDate dates))).
Proof.
  intros Hs Hd. unfold parse_dates.
  rewrite (getitem_column _ _ _ Hs), exn_bind_inr, Hd, exn_bind_inr.
  assert (select (assign df "date" (SDate dates)) "date" = [SDate dates]) as Ha
    by (apply select_assign_one; rewrite Hs; simpl; lia).
  unfold dropna. rewrite Ha.
  change (rows_of [SDate dates]) with (height (SDate dates)).
  rewrite all_notna_one. cbn [notna]. rewrite exn_bind_inr.
  unfold sort_values.
  rewrite (getitem_column _ _ (SDate (take_mask (map present dates) dates)))
    by (rewrite select_map_values, Ha; reflexivity).
  rewrite map_map. f_equal. apply map_ext.
  intros [k0 s0]. cbn [fst snd]. now destruct s0.
Qed.

Lemma load_data_kept raw df :
  load_data parse_date render (Some raw) = Table df ->
  exists s dates,
    select (relabel raw) "date" = [s]
    /\ to_datetime parse_date (Column s) = inr (SDate dates)
    /\ clean_columns render numeric_cols
         (map (fun p => (fst p, on_rows (kept_rows dates) (snd p)))
              (assign (relabel raw) "date" (SDate dates))) = inr df.
Proof.
  unfold load_data. fold (relabel raw).
  destruct (has_column (relabel raw) "date"); [|discriminate].
  destruct (parse_dates parse_date (relabel raw) ≫= _) as [e|df1] eqn:E;
    [discriminate|].
  intros H. inversion H; subst df1. clear H.
  apply exn_bind_inv in E as [dated [Hd Hc]].
  destruct (parse_dates_inv _ _ _ Hd) as [s Hs].
  destruct (to_datetime_column parse_date s) as [dates Ht].
  rewrite (parse_dates_kept _ _ _ Hs Ht) in Hd. inversion Hd; subst dated.
  now exists s, dates.
Qed.

Lemma text_table_relabel n raw : text_table n raw -> text_table n (relabel raw).
Proof.
  unfold text_table, relabel, set_columns. intros H.
  rewrite map_map. apply List.Forall_map.
  eapply List.Forall_impl; [|exact H]. now intros [k s].
Qed.

Lemma select_In df k s : In s (select df k) -> exists k', In (k', s) df.
Proof.
  unfold select. intros H. apply in_map_iff in H as [[k' s'] [<- H]].
  apply filter_In in H as [H _]. now exists k'.
Qed.

Lemma In_select df k s : In (k, s) df -> In s (select df k).
Proof.
  intros H. unfold select. apply in_map_iff. exists (k, s). split; [reflexivity|].
  apply filter_In. split; [exact H|]. cbn [fst]. apply String.eqb_refl.
Qed.

Lemma text_table_select n df k s :
  text_table n df -> In s (select df k) -> exists l, s = SObj l /\ length l = n.
Proof.
  intros Ht Hs. apply select_In in Hs as [k' Hs].
  unfold text_table in Ht. rewrite List.Forall_forall in Ht.
  exact (Ht _ Hs).
Qed.

Lemma is_numeric_col k : existsb (String.eqb k) numeric_cols = true <-> In k numeric_cols.
Proof.
  rewrite existsb_exists. split.
  - intros [k' [H E]]. apply String.eqb_eq in E. now subst.
  - intros H. exists k. split; [exact H | apply String.eqb_refl].
Qed.

(** Each label of the loaded table, from the columns of the file and the
    positions of the kept rows. *)
Lemma load_data_rows_core n raw df :
  text_table n raw ->
  load_data parse_date render (Some raw) = Table df ->
  exists texts,
    select (relabel raw) "date" = [SObj texts] /\ length texts = n
    /\ let idx := kept_rows (map parse_date texts) nat (seq 0 n) in
       forall k,
         select df k
         = if String.eqb k "date"
           then [SDate (take_rows idx _ (map parse_date texts))]
           else if existsb (String.eqb k) numeric_cols
           then map (fun s => coerce_series (on_rows (take_rows idx) s))
                    (select (relabel raw) k)
           else map (on_rows (take_rows idx)) (select (relabel raw) k).
Proof.
  intros Htext H. apply text_table_relabel in Htext.
  apply load_data_kept in H as (s & dates & Hs & Hd & Hc).
  destruct (text_table_select n _ "date" s Htext) as [texts [-> Hn]];
    [rewrite Hs; now left|].
  cbn [to_datetime] in Hd. inversion Hd; subst dates. clear Hd.
  exists texts. split; [exact Hs|]. split; [exact Hn|]. intros idx k.
  assert (length (map parse_date texts) = n) as Hdn by now rewrite length_map.
  assert (forall A (l : list A), length l = n ->
            kept_rows (map parse_date texts) A l = take_rows idx A l) as Hpos.
  { intros A l Hl. unfold idx. rewrite <- Hdn. apply kept_rows_positions. congruence. }
  assert (forall k s, In s (select (relabel raw) k) ->
            on_rows (kept_rows (map parse_date texts)) s = on_rows (take_rows idx) s)
    as Hcol.
  { intros k0 s0 Hin. destruct (text_table_select n _ _ _ Htext Hin) as [l [-> Hl]].
    cbn [on_rows]. now rewrite Hpos. }
  apply (clean_columns_spec render _ numeric_cols_NoDup) in Hc as [Hin Hout].
  destruct (String.eqb k "date") eqn:Ek.
  - apply String.eqb_eq in Ek. subst k.
    rewrite (Hout "date" date_not_numeric).
    rewrite select_dated by (rewrite Hs; simpl; lia).
    cbn [String.eqb Ascii.eqb Bool.eqb on_rows]. now rewrite Hpos.
  - destruct (existsb (String.eqb k) numeric_cols) eqn:En.
    + apply is_numeric_col in En. specialize (Hin k En).
      rewrite select_dated, Ek in Hin by (rewrite Hs; simpl; lia).
      destruct Hin as [[E1 ->] | [s' [E1 [-> _]]]].
      * now destruct (select (relabel raw) k).
      * destruct (select (relabel raw) k) as [|s0 [|s1 rest]] eqn:Esel;
          try discriminate E1.
        inversion E1; subst s'.
        destruct (text_table_select n _ k s0 Htext) as [l [-> Hl]];
          [rewrite Esel; now left|].
        cbn [map on_rows astype_str coerce_series]. now rewrite Hpos.
    + assert (~ In k numeric_cols) as Hk
        by (intros Hk; apply is_numeric_col in Hk; congruence).
      rewrite (Hout k Hk), select_dated, Ek by (rewrite Hs; simpl; lia).
      apply map_ext_in. intros s0 Hs0. exact (Hcol k s0 Hs0).
Qed.


End LoaderRows.


(** ** How many rows the loaded table has *)

Lemma take_rows_length {A : Type} (l : list A) idx :
  Forall (fun i => (i < length l)%nat) idx -> length (take_rows idx A l) = length idx.
Proof.
  unfold take_rows. induction 1 as [|i idx Hi Hidx IH]; [reflexivity|].
  cbn [omap list_omap]. fold (omap (fun i => l !! i) idx).
  destruct (lookup_lt_is_Some_2 l i Hi) as [x ->]. simpl. now rewrite IH.
Qed.

Lemma filter_map_length {A B : Type} (p : B -> bool) (g : A -> B) (l : list A) :
  length (List.filter p (map g l)) = length (List.filter (fun x => p (g x)) l).
Proof.
  induction l as [|x l IH]; simpl; [reflexivity|].
  destruct (p (g x)); simpl; now rewrite IH.
Qed.

Lemma kept_positions_bound dates :
  Forall (fun i => (i < length dates)%nat) (kept_rows dates nat (seq 0 (length dates))).
Proof.
  apply kept_rows_Forall, List.Forall_forall. intros i Hi. apply in_seq in Hi. lia.
Qed.

Lemma coerce_series_height s : height (coerce_series s) = height s.
Proof. destruct s; simpl; now rewrite ?length_map. Qed.

(** X3.  The loaded table is rectangular, and it has as many rows as the
    file has rows whose date text is read as a date. *)
Theorem load_data_height parse_date render n raw df :
  text_table n raw ->
  load_data parse_date render (Some raw) = Table df ->
  exists texts,
    select (relabel raw) "date" = [SObj texts]
    /\ Forall (fun p => height (snd p)
                        = length (List.filter (fun t => present (parse_date t)) texts))
              df.
Proof.
  intros Htext H.
  destruct (load_data_rows_core parse_date render n raw df Htext H)
    as (texts & Hs & Hn & Hk).
  exists texts. split; [exact Hs|].
  set (dates := map parse_date texts) in *.
  set (idx := kept_rows dates nat (seq 0 n)) in *.
  assert (length dates = n) as Hdn by (unfold dates; now rewrite length_map).
  assert (forall A (l : list A), length l = n -> length (take_rows idx A l) = length idx)
    as Hlen.
  { intros A l Hl. apply take_rows_length. rewrite Hl, <- Hdn.
    unfold idx. rewrite <- Hdn. apply kept_positions_bound. }
  assert (length idx = length (List.filter (fun t => present (parse_date t)) texts))
    as Hidx.
  { pose proof (kept_positions dates) as (_ & _ & Hc). rewrite Hdn in Hc.
    fold idx in Hc. rewrite Hc. unfold dates. rewrite map_map.
    apply (filter_map_length (fun b : bool => b)). }
  apply text_table_relabel in Htext.
  apply List.Forall_forall. intros [k s] Hin. cbn [snd]. rewrite <- Hidx.
  apply In_select in Hin. rewrite Hk in Hin.
  destruct (String.eqb k "date").
  - destruct Hin as [<- | []]. cbn [height]. now apply Hlen.
  - destruct (existsb (String.eqb k) numeric_cols);
      apply in_map_iff in Hin as [s0 [<- Hs0]];
      destruct (text_table_select n _ _ _ Htext Hs0) as [l [-> Hl]];
      rewrite ?coerce_series_height; cbn [on_rows height]; now apply Hlen.
Qed.

Lemma load_data_height_witness :
  let raw := [ ("Date", SObj ["2021-01-02"; "soon"; "2021-01-01"]);
               ("Confirmed", SObj ["150"; "7"; "100"]) ] in
  let df := [ ("date", SDate [Some 1609459200000000000; Some 1609545600000000000]);
              ("total_confirmed_cases", SInt [Some 100; Some 150]) ] in
  text_table 3 raw
  /\ load_data Sample.iso_date Sample.render_blank (Some raw) = Table df
  /\ exists texts,
       select (relabel raw) "date" = [SObj texts]
       /\ Forall (fun p => height (snd p)
                           = length (List.filter (fun t => present (Sample.iso_date t))
                                                 texts))
                 df.
Proof.
  intros raw df.
  assert (text_table 3 raw) as Ht by (repeat constructor; eexists; split; reflexivity).
  assert (load_data Sample.iso_date Sample.render_blank (Some raw) = Table df) as H
    by (vm_compute; reflexivity).
  split; [exact Ht|]. split; [exact H|].
  exact (load_data_height Sample.iso_date Sample.render_blank 3 raw df Ht H).
Defined.

Lemma take_mask_none {A : Type} (dates : list (option Z)) (l : list A) :
  Forall (fun d => d = None) dates -> take_mask (map present dates) l = [].
Proof.
  intros H. revert l. induction H as [|d dates -> _ IH]; intros [|x l]; simpl; auto.
Qed.

Lemma kept_rows_none {A : Type} dates (l : list A) :
  Forall (fun d => d = None) dates -> kept_rows dates A l = [].
Proof.
  intros H. unfold kept_rows, order_by. rewrite !take_mask_none by exact H.
  reflexivity.
Qed.

(** X4.  Dates that cannot be read never make the load fail.  A table of
    texts with one date column in which no date is read, in particular a
    table without rows, is loaded as a table without rows, whatever its
    other cells hold, as long as no count label is carried twice. *)
Theorem load_data_without_dates parse_date render n raw texts :
  text_table n raw ->
  select (relabel raw) "date" = [SObj texts] ->
  Forall (fun t => parse_date t = None) texts ->
  (forall k, In k numeric_cols -> (length (select (relabel raw) k) <= 1)%nat) ->
  exists df,
    load_data parse_date render (Some raw) = Table df
    /\ Forall (fun p => height (snd p) = 0%nat) df.
Proof.
  intros Htext Hs Hnone Hcols.
  set (dates := map parse_date texts).
  assert (Forall (fun d => d = None) dates) as Hd
    by (unfold dates; now apply List.Forall_map).
  assert (exists df, load_data parse_date render (Some raw) = Table df) as [df Hdf].
  { unfold load_data. fold (relabel raw).
    assert (has_column (relabel raw) "date" = true) as ->
      by (apply has_column_true; congruence).
    rewrite (parse_dates_kept parse_date _ _ dates Hs eq_refl), exn_bind_inr.
    destruct (clean_columns_ok render _ numeric_cols_NoDup
                (map (fun p => (fst p, on_rows (kept_rows dates) (snd p)))
                     (assign (relabel raw) "date" (SDate dates)))) as [df Hdf].
    - intros k Hk.
      assert (String.eqb k "date" = false) as Hne.
      { apply String.eqb_neq. intros ->. now apply date_not_numeric. }
      rewrite select_dated, Hne by (rewrite Hs; simpl; lia).
      specialize (Hcols k Hk).
      destruct (select (relabel raw) k) as [|s0 [|s1 rest]] eqn:E;
        [now left | | simpl in Hcols; lia].
      right. exists (on_rows (kept_rows dates) s0). split; [reflexivity|].
      destruct (text_table_select n _ k s0 (text_table_relabel _ _ Htext))
        as [l [-> _]]; [rewrite E; now left|].
      cbn [on_rows astype_str]. rewrite kept_rows_none by exact Hd. constructor.
    - exists df. now rewrite Hdf. }
  exists df. split; [exact Hdf|].
  destruct (load_data_rows_core parse_date render n raw df Htext Hdf)
    as (texts' & Hs' & _ & Hk).
  rewrite Hs in Hs'. inversion Hs'; subst texts'. fold dates in Hk.
  rewrite kept_rows_none in Hk by exact Hd. cbn zeta in Hk.
  apply List.Forall_forall. intros [k s] Hin. cbn [snd].
  apply In_select in Hin. rewrite Hk in Hin.
  destruct (String.eqb k "date").
  - destruct Hin as [<- | []]. reflexivity.
  - destruct (existsb (String.eqb k) numeric_cols);
      apply in_map_iff in Hin as [s0 [<- _]];
      rewrite ?coerce_series_height; now destruct s0.
Qed.

Lemma load_data_without_dates_witness :
  let raw := [ ("Date", SObj ["tomorrow"; ""]);
               ("Confirmed", SObj ["99999999999999999999999"; "7"]) ] in
  let texts := ["tomorrow"; ""] in
  text_table 2 raw
  /\ select (relabel raw) "date" = [SObj texts]
  /\ Forall (fun t => Sample.iso_date t = None) texts
  /\ (forall k, In k numeric_cols -> (length (select (relabel raw) k) <= 1)%nat)
  /\ exists df,
       load_data Sample.iso_date Sample.render_blank (Some raw) = Table df
       /\ Forall (fun p => height (snd p) = 0%nat) df.
Proof.
  intros raw texts.
  assert (text_table 2 raw) as Ht by (repeat constructor; eexists; split; reflexivity).
  assert (select (relabel raw) "date" = [SObj texts]) as Hs by reflexivity.
  assert (Forall (fun t => Sample.iso_date t = None) texts) as Hn
    by (repeat constructor).
  assert (forall k, In k numeric_cols -> (length (select (relabel raw) k) <= 1)%nat)
    as Hc by sample_once.
  split; [exact Ht|]. split; [exact Hs|]. split; [exact Hn|]. split; [exact Hc|].
  exact (load_data_without_dates Sample.iso_date Sample.render_blank 2 raw texts
           Ht Hs Hn Hc).
Defined.

(** * More about the metric functions *)

(** ** The tables they leave *)

Lemma assign_same t k s :
  select t k <> [] -> Forall (fun s' => s' = s) (select t k) -> assign t k s = t.
Proof.
  intros Hne Hall. unfold assign.
  assert (has_column t k = true) as -> by now apply has_column_true.
  clear Hne. induction t as [|[k' s'] t IH]; [reflexivity|].
  rewrite select_cons in Hall. cbn [map fst].
  destruct (String.eqb k k') eqn:E.
  - inversion Hall; subst. now rewrite IH.
  - now rewrite IH.
Qed.

Lemma assign_same_one t k s : select t k = [s] -> assign t k s = t.
Proof.
  intros H. apply assign_same; rewrite H; [discriminate | now repeat constructor].
Qed.

Lemma has_column_assign t k s : has_column (assign t k s) k = true.
Proof.
  apply has_column_true. rewrite select_assign_same.
  destruct (select t k); discriminate.
Qed.

Lemma assign_assign t k a b : assign (assign t k a) k b = assign t k b.
Proof.
  unfold assign at 1. rewrite has_column_assign.
  unfold assign. destruct (has_column t k) eqn:E.
  - rewrite map_map. apply map_ext. intros [k' s']. cbn [fst].
    destruct (String.eqb k k') eqn:E'; cbn [fst]; now rewrite E'.
  - rewrite map_app. cbn [map fst]. rewrite String.eqb_refl. f_equal.
    apply has_column_select in E.
    clear -E. induction t as [|[k' s'] t IH]; [reflexivity|].
    rewrite select_cons in E. cbn [map fst].
    destruct (String.eqb k k'); [discriminate|]. now rewrite IH.
Qed.

Section GrowthTable.

Variable ln : Q -> Q.

(** [calculate_growth_metrics] runs to its end on a table with one numeric
    column of confirmed cases, and leaves [growth_table]. *)
Lemma growth_table_run df (h : heap) t c :
  h !! df = Some t ->
  select t "total_confirmed_cases" = [series_of c] ->
  at_most_once t growth_columns ->
  calculate_growth_metrics ln df h = (inr df, <[df := growth_table ln c t]> h).
Proof.
  intros Hh Hc Hm. unfold growth_table.
  set (g := fillna0 (pct_change c)).
  set (d := rdiv_float (log_2 ln) (np_log ln (radd_int 1 g))).
  set (t1 := assign t "daily_change" (series_of (fillna0 (diff c)))).
  set (t2 := assign t1 "growth_rate" (series_of g)).
  set (t3 := assign t2 "growth_rate_pct" (series_of (mul_int g 100))).
  set (t4 := assign t3 "doubling_time_days" (series_of d)).
  cbv zeta.
  assert (at_most_once t1 growth_columns) as Hm1 by now apply at_most_once_assign.
  assert (at_most_once t2 growth_columns) as Hm2 by now apply at_most_once_assign.
  assert (at_most_once t3 growth_columns) as Hm3 by now apply at_most_once_assign.
  assert (select t2 "growth_rate" = [series_of g]) as Hg2
    by (apply select_assign_one, Hm1; simpl; tauto).
  assert (select t4 "doubling_time_days" = [series_of d]) as Hd4
    by (apply select_assign_one, Hm3; simpl; tauto).
  unfold calculate_growth_metrics.
  rewrite (py_read_then _ _ _ h t c Hh Hc), (py_assign_then _ _ _ _ h t Hh).
  fold t1. set (h1 := <[df:=t1]> h).
  assert (h1 !! df = Some t1) as Hh1 by apply lookup_insert_eq.
  rewrite (py_read_then _ _ _ h1 t1 c Hh1) by (unfold t1; now other_label).
  rewrite (py_assign_then _ _ _ _ h1 t1 Hh1).
  fold g t2. set (h2 := <[df:=t2]> h1).
  assert (h2 !! df = Some t2) as Hh2 by apply lookup_insert_eq.
  rewrite (py_read_then _ _ _ h2 t2 g Hh2 Hg2), (py_assign_then _ _ _ _ h2 t2 Hh2).
  fold t3. set (h3 := <[df:=t3]> h2).
  assert (h3 !! df = Some t3) as Hh3 by apply lookup_insert_eq.
  rewrite (py_read_then _ _ _ h3 t3 g Hh3) by (unfold t3; now other_label).
  rewrite (py_assign_then _ _ _ _ h3 t3 Hh3).
  fold d t4. set (h4 := <[df:=t4]> h3).
  assert (h4 !! df = Some t4) as Hh4 by apply lookup_insert_eq.
  rewrite (py_read_then _ _ _ h4 t4 d Hh4 Hd4), (py_assign_then _ _ _ _ h4 t4 Hh4).
  unfold h4, h3, h2, h1. now rewrite !insert_insert_eq.
Qed.

(** The columns of [growth_table], label by label. *)
Lemma select_growth_table t c k :
  at_most_once t growth_columns ->
  select (growth_table ln c t) k
  = let g := fillna0 (pct_change c) in
    if String.eqb k "daily_change" then [series_of (fillna0 (diff c))]
    else if String.eqb k "growth_rate" then [series_of g]
    else if String.eqb k "growth_rate_pct" then [series_of (mul_int g 100)]
    else if String.eqb k "doubling_time_days"
    then [series_of (fillna0 (replace_inf
                       (rdiv_float (log_2 ln) (np_log ln (radd_int 1 g)))))]
    else select t k.
Proof.
  intros Hm. unfold growth_table. cbv zeta. rewrite assign_assign.
  assert (forall k', In k' growth_columns -> forall t0, at_most_once t0 growth_columns ->
            (length (select t0 k') <= 1)%nat) as Hone by (intros k' Hk t0 H0; now apply H0).
  destruct (String.eqb_spec k "daily_change") as [-> | N1].
  { other_label. apply select_assign_one, Hm. simpl; tauto. }
  destruct (String.eqb_spec k "growth_rate") as [-> | N2].
  { other_label. apply select_assign_one, Hone; [simpl; tauto|].
    now apply at_most_once_assign. }
  destruct (String.eqb_spec k "growth_rate_pct") as [-> | N3].
  { other_label. apply select_assign_one, Hone; [simpl; tauto|].
    now repeat apply at_most_once_assign. }
  destruct (String.eqb_spec k "doubling_time_days") as [-> | N4].
  { apply select_assign_one, Hone; [simpl; tauto|].
    now repeat apply at_most_once_assign. }
  rewrite !select_assign_other by congruence. reflexivity.
Qed.

End GrowthTable.

Lemma rates_table_run df (h : heap) t d c r :
  h !! df = Some t ->
  select t "total_deaths" = [series_of d] ->
  select t "total_confirmed_cases" = [series_of c] ->
  select t "total_recovered" = [series_of r] ->
  at_most_once t rate_columns ->
  calculate_rates df h = (inr df, <[df := rates_table d c r t]> h).
Proof.
  intros Hh Hd Hc Hr Hm. unfold rates_table.
  set (t1 := assign t "cfr" (series_of (truediv d c))).
  set (t2 := assign t1 "recovery_rate" (series_of (truediv r c))).
  set (t3 := assign t2 "cfr_pct" (series_of (mul_int (truediv d c) 100))).
  cbv zeta.
  assert (at_most_once t1 rate_columns) as Hm1 by now apply at_most_once_assign.
  assert (select t1 "cfr" = [series_of (truediv d c)]) as Hf1
    by (apply select_assign_one, Hm; simpl; tauto).
  assert (select t2 "recovery_rate" = [series_of (truediv r c)]) as Hr2
    by (apply select_assign_one, Hm1; simpl; tauto).
  unfold calculate_rates.
  rewrite (py_read_then _ _ _ h t d Hh Hd), (py_read_then _ _ _ h t c Hh Hc).
  rewrite (py_assign_then _ _ _ _ h t Hh).
  fold t1. set (h1 := <[df:=t1]> h).
  assert (h1 !! df = Some t1) as Hh1 by apply lookup_insert_eq.
  rewrite (py_read_then _ _ _ h1 t1 r Hh1) by (unfold t1; now other_label).
  rewrite (py_read_then _ _ _ h1 t1 c Hh1) by (unfold t1; now other_label).
  rewrite (py_assign_then _ _ _ _ h1 t1 Hh1).
  fold t2. set (h2 := <[df:=t2]> h1).
  assert (h2 !! df = Some t2) as Hh2 by apply lookup_insert_eq.
  rewrite (py_read_then _ _ _ h2 t2 (truediv d c) Hh2)
    by (unfold t2; now other_label).
  rewrite (py_assign_then _ _ _ _ h2 t2 Hh2).
  fold t3. set (h3 := <[df:=t3]> h2).
  assert (h3 !! df = Some t3) as Hh3 by apply lookup_insert_eq.
  rewrite (py_read_then _ _ _ h3 t3 (truediv r c) Hh3)
    by (unfold t3; now other_label).
  rewrite (py_assign_then _ _ _ _ h3 t3 Hh3).
  unfold h3, h2, h1. now rewrite !insert_insert_eq.
Qed.

Lemma select_rates_table t d c r k :
  at_most_once t rate_columns ->
  select (rates_table d c r t) k
  = if String.eqb k "cfr" then [series_of (truediv d c)]
    else if String.eqb k "recovery_rate" then [series_of (truediv r c)]
    else if String.eqb k "cfr_pct" then [series_of (mul_int (truediv d c) 100)]
    else if String.eqb k "recovery_rate_pct"
    then [series_of (mul_int (truediv r c) 100)]
    else select t k.
Proof.
  intros Hm. unfold rates_table. cbv zeta.
  assert (forall k', In k' rate_columns -> forall t0, at_most_once t0 rate_columns ->
            (length (select t0 k') <= 1)%nat) as Hone by (intros k' Hk t0 H0; now apply H0).
  destruct (String.eqb_spec k "cfr") as [-> | N1].
  { other_label. apply select_assign_one, Hm. simpl; tauto. }
  destruct (String.eqb_spec k "recovery_rate") as [-> | N2].
  { other_label. apply select_assign_one, Hone; [simpl; tauto|].
    now apply at_most_once_assign. }
  destruct (String.eqb_spec k "cfr_pct") as [-> | N3].
  { other_label. apply select_assign_one, Hone; [simpl; tauto|].
    now repeat apply at_most_once_assign. }
  destruct (String.eqb_spec k "recovery_rate_pct") as [-> | N4].
  { apply select_assign_one, Hone; [simpl; tauto|].
    now repeat apply at_most_once_assign. }
  rewrite !select_assign_other by congruence. reflexivity.
Qed.

(** ** Calling them again, and in the other order *)

Lemma at_most_once_growth_table ln c t ks :
  at_most_once t ks -> at_most_once (growth_table ln c t) ks.
Proof. intros H. unfold growth_table. cbv zeta. now repeat apply at_most_once_assign. Qed.

Lemma at_most_once_rates_table d c r t ks :
  at_most_once t ks -> at_most_once (rates_table d c r t) ks.
Proof. intros H. unfold rates_table. cbv zeta. now repeat apply at_most_once_assign. Qed.

Lemma growth_table_twice ln c t :
  at_most_once t growth_columns ->
  growth_table ln c (growth_table ln c t) = growth_table ln c t.
Proof.
  intros Hm. set (T := growth_table ln c t).
  assert (select T "daily_change" = [series_of (fillna0 (diff c))]) as H1
    by exact (select_growth_table ln t c "daily_change" Hm).
  assert (select T "growth_rate" = [series_of (fillna0 (pct_change c))]) as H2
    by exact (select_growth_table ln t c "growth_rate" Hm).
  assert (select T "growth_rate_pct"
          = [series_of (mul_int (fillna0 (pct_change c)) 100)]) as H3
    by exact (select_growth_table ln t c "growth_rate_pct" Hm).
  pose proof (select_growth_table ln t c "doubling_time_days" Hm) as H4.
  fold T in H4. change (String.eqb "doubling_time_days" "daily_change") with false in H4.
  change (String.eqb "doubling_time_days" "growth_rate") with false in H4.
  change (String.eqb "doubling_time_days" "growth_rate_pct") with false in H4.
  change (String.eqb "doubling_time_days" "doubling_time_days") with true in H4.
  cbv zeta iota in H4.
  unfold growth_table at 1. cbv zeta. rewrite assign_assign.
  rewrite (assign_same_one T _ _ H1), (assign_same_one T _ _ H2).
  rewrite (assign_same_one T _ _ H3). now apply assign_same_one.
Qed.

Lemma rates_table_twice d c r t :
  at_most_once t rate_columns ->
  rates_table d c r (rates_table d c r t) = rates_table d c r t.
Proof.
  intros Hm. set (T := rates_table d c r t).
  assert (select T "cfr" = [series_of (truediv d c)]) as H1
    by exact (select_rates_table t d c r "cfr" Hm).
  assert (select T "recovery_rate" = [series_of (truediv r c)]) as H2
    by exact (select_rates_table t d c r "recovery_rate" Hm).
  assert (select T "cfr_pct" = [series_of (mul_int (truediv d c) 100)]) as H3
    by exact (select_rates_table t d c r "cfr_pct" Hm).
  assert (select T "recovery_rate_pct" = [series_of (mul_int (truediv r c) 100)]) as H4
    by exact (select_rates_table t d c r "recovery_rate_pct" Hm).
  unfold rates_table at 1. cbv zeta.
  rewrite (assign_same_one T _ _ H1), (assign_same_one T _ _ H2).
  rewrite (assign_same_one T _ _ H3). now apply assign_same_one.
Qed.

(** X5.  [calculate_growth_metrics] is idempotent: on a table with one
    numeric column of confirmed cases, a second call on the table the first
    call left changes nothing. *)
Theorem growth_metrics_idempotent ln df (h : heap) t c :
  h !! df = Some t ->
  select t "total_confirmed_cases" = [series_of c] ->
  at_most_once t growth_columns ->
  exists h1,
    calculate_growth_metrics ln df h = (inr df, h1)
    /\ calculate_growth_metrics ln df h1 = (inr df, h1).
Proof.
  intros Hh Hc Hm. exists (<[df := growth_table ln c t]> h).
  split; [now apply growth_table_run|].
  rewrite (growth_table_run ln df _ (growth_table ln c t) c).
  - now rewrite growth_table_twice, insert_insert_eq.
  - apply lookup_insert_eq.
  - rewrite <- Hc. exact (select_growth_table ln t c "total_confirmed_cases" Hm).
  - now apply at_most_once_growth_table.
Qed.

(** X6.  [calculate_rates] is idempotent on a table with its three numeric
    count columns. *)
Theorem rates_idempotent df (h : heap) t d c r :
  h !! df = Some t ->
  select t "total_deaths" = [series_of d] ->
  select t "total_confirmed_cases" = [series_of c] ->
  select t "total_recovered" = [series_of r] ->
  at_most_once t rate_columns ->
  exists h1,
    calculate_rates df h = (inr df, h1) /\ calculate_rates df h1 = (inr df, h1).
Proof.
  intros Hh Hd Hc Hr Hm. exists (<[df := rates_table d c r t]> h).
  split; [now apply rates_table_run|].
  rewrite (rates_table_run df _ (rates_table d c r t) d c r).
  - now rewrite rates_table_twice, insert_insert_eq.
  - apply lookup_insert_eq.
  - rewrite <- Hd. exact (select_rates_table t d c r "total_deaths" Hm).
  - rewrite <- Hc. exact (select_rates_table t d c r "total_confirmed_cases" Hm).
  - rewrite <- Hr. exact (select_rates_table t d c r "total_recovered" Hm).
  - now apply at_most_once_rates_table.
Qed.

Lemma at_most_once_app_l t ks ks' : at_most_once t (ks ++ ks') -> at_most_once t ks.
Proof. intros H k Hk. apply H, in_or_app. now left. Qed.

Lemma at_most_once_app_r t ks ks' : at_most_once t (ks ++ ks') -> at_most_once t ks'.
Proof. intros H k Hk. apply H, in_or_app. now right. Qed.

(** X7.  The two metric functions do not depend on each other: called in
    either order on a table with its three numeric count columns, both
    calls succeed and every label ends up over the same cells (only the
    order in which the new columns are appended differs). *)
Theorem metrics_commute ln df (h : heap) t d c r :
  h !! df = Some t ->
  select t "total_deaths" = [series_of d] ->
  select t "total_confirmed_cases" = [series_of c] ->
  select t "total_recovered" = [series_of r] ->
  at_most_once t (growth_columns ++ rate_columns) ->
  exists ta tb,
    (calculate_growth_metrics ln df ≫= calculate_rates) h = (inr df, <[df := ta]> h)
    /\ (calculate_rates df ≫= calculate_growth_metrics ln) h = (inr df, <[df := tb]> h)
    /\ forall k, select ta k = select tb k.
Proof.
  intros Hh Hd Hc Hr Hm.
  pose proof (at_most_once_app_l _ _ _ Hm) as Hmg.
  pose proof (at_most_once_app_r _ _ _ Hm) as Hmr.
  exists (rates_table d c r (growth_table ln c t)),
         (growth_table ln c (rates_table d c r t)).
  split; [|split].
  - rewrite (py_bind_run _ _ _ _ _ (growth_table_run ln df h t c Hh Hc Hmg)).
    rewrite (rates_table_run df _ (growth_table ln c t) d c r).
    + now rewrite insert_insert_eq.
    + apply lookup_insert_eq.
    + rewrite <- Hd. exact (select_growth_table ln t c "total_deaths" Hmg).
    + rewrite <- Hc. exact (select_growth_table ln t c "total_confirmed_cases" Hmg).
    + rewrite <- Hr. exact (select_growth_table ln t c "total_recovered" Hmg).
    + now apply at_most_once_growth_table.
  - rewrite (py_bind_run _ _ _ _ _ (rates_table_run df h t d c r Hh Hd Hc Hr Hmr)).
    rewrite (growth_table_run ln df _ (rates_table d c r t) c).
    + now rewrite insert_insert_eq.
    + apply lookup_insert_eq.
    + rewrite <- Hc. exact (select_rates_table t d c r "total_confirmed_cases" Hmr).
    + now apply at_most_once_rates_table.
  - intros k.
    rewrite select_rates_table by now apply at_most_once_growth_table.
    rewrite (select_growth_table ln (rates_table d c r t))
      by now apply at_most_once_rates_table.
    rewrite select_growth_table, select_rates_table by assumption. cbv zeta.
    destruct (String.eqb_spec k "cfr") as [-> | ?]; [reflexivity|].
    destruct (String.eqb_spec k "recovery_rate") as [-> | ?]; [reflexivity|].
    destruct (String.eqb_spec k "cfr_pct") as [-> | ?]; [reflexivity|].
    destruct (String.eqb_spec k "recovery_rate_pct") as [-> | ?]; reflexivity.
Qed.

(** ** Missing columns *)

Lemma py_getitem_missing df k (h : heap) t :
  h !! df = Some t -> select t k = [] -> py_getitem df k h = (inl (KeyError k), h).
Proof. intros Hh Hs. unfold py_getitem, getitem. now rewrite Hh, Hs. Qed.

(** X8.  The column of confirmed cases is optional for [load_data] and
    required by [calculate_growth_metrics]: on the table loaded from a file
    that has no such column, the function raises [KeyError] for
    [total_confirmed_cases] and leaves the table as it was. *)
Theorem growth_metrics_need_confirmed parse_date render ln raw t df (h : heap) :
  load_data parse_date render (Some raw) = Table t ->
  select (relabel raw) "total_confirmed_cases" = [] ->
  h !! df = Some t ->
  calculate_growth_metrics ln df h = (inl (KeyError "total_confirmed_cases"), h).
Proof.
  intros Hload Hraw Hh.
  assert (select t "total_confirmed_cases" = []) as Hs.
  { apply load_data_Table in Hload as (f & s & dates & ds & _ & Hdate & _ & _ & Hc).
    apply (clean_columns_spec render _ numeric_cols_NoDup) in Hc as [Hin _].
    specialize (Hin "total_confirmed_cases" (or_introl eq_refl)).
    rewrite select_dated in Hin by (rewrite Hdate; simpl; lia).
    change (String.eqb "total_confirmed_cases" "date") with false in Hin.
    cbv iota in Hin. rewrite Hraw in Hin.
    destruct Hin as [[_ H] | [s' [H _]]]; [exact H | discriminate H]. }
  unfold calculate_growth_metrics.
  apply py_bind_raise. now apply (py_getitem_missing _ _ _ t).
Qed.

Lemma growth_metrics_need_confirmed_witness :
  let raw := [ ("Date", SObj ["2021-01-02"; "2021-01-01"]);
               ("Deaths", SObj ["3"; "2"]) ] in
  let t := [ ("date", SDate [Some 1609459200000000000; Some 1609545600000000000]);
             ("total_deaths", SInt [Some 2; Some 3]) ] in
  let h : heap := {[ 7%nat := t ]} in
  load_data Sample.iso_date Sample.render_blank (Some raw) = Table t
  /\ select (relabel raw) "total_confirmed_cases" = []
  /\ h !! 7%nat = Some t
  /\ calculate_growth_metrics Sample.ln_1 7%nat h
     = (inl (KeyError "total_confirmed_cases"), h).
Proof.
  intros raw t h.
  assert (load_data Sample.iso_date Sample.render_blank (Some raw) = Table t) as H1
    by (vm_compute; reflexivity).
  assert (select (relabel raw) "total_confirmed_cases" = []) as H2 by reflexivity.
  assert (h !! 7%nat = Some t) as H3 by (vm_compute; reflexivity).
  split; [exact H1|]. split; [exact H2|]. split; [exact H3|].
  exact (growth_metrics_need_confirmed Sample.iso_date Sample.render_blank
           Sample.ln_1 raw t 7%nat h H1 H2 H3).
Defined.

(** X9.  What [calculate_rates] does when one of its three columns is
    missing.  Without deaths, or with deaths and without confirmed cases,
    it raises [KeyError] for the missing label before it writes anything.
    With both and without recoveries, it raises [KeyError] for
    [total_recovered] after it has written [cfr]: the table keeps that one
    new column. *)
Theorem rates_missing_column df (h : heap) t :
  h !! df = Some t ->
  (select t "total_deaths" = [] ->
     calculate_rates df h = (inl (KeyError "total_deaths"), h))
  /\ (forall d, select t "total_deaths" = [series_of d] ->
        select t "total_confirmed_cases" = [] ->
        calculate_rates df h = (inl (KeyError "total_confirmed_cases"), h))
  /\ (forall d c, select t "total_deaths" = [series_of d] ->
        select t "total_confirmed_cases" = [series_of c] ->
        select t "total_recovered" = [] ->
        calculate_rates df h
        = (inl (KeyError "total_recovered"),
           <[df := assign t "cfr" (series_of (truediv d c))]> h)).
Proof.
  intros Hh. split; [|split].
  - intros Hd. unfold calculate_rates.
    apply py_bind_raise. now apply (py_getitem_missing _ _ _ t).
  - intros d Hd Hc. unfold calculate_rates.
    rewrite (py_read_then _ _ _ h t d Hh Hd).
    apply py_bind_raise. now apply (py_getitem_missing _ _ _ t).
  - intros d c Hd Hc Hr. unfold calculate_rates.
    rewrite (py_read_then _ _ _ h t d Hh Hd), (py_read_then _ _ _ h t c Hh Hc).
    rewrite (py_assign_then _ _ _ _ h t Hh).
    apply py_bind_raise.
    apply (py_getitem_missing _ _ _ (assign t "cfr" (series_of (truediv d c)))).
    + apply lookup_insert_eq.
    + now other_label.
Qed.

Lemma rates_missing_column_witness :
  let t := [ ("date", SDate [Some 0; Some 1]);
             ("total_confirmed_cases", SInt [Some 100; Some 150]);
             ("total_deaths", SInt [Some 2; Some 3]) ] in
  let h : heap := {[ 7%nat := t ]} in
  h !! 7%nat = Some t
  /\ select t "total_deaths" = [SInt [Some 2; Some 3]]
  /\ select t "total_confirmed_cases" = [SInt [Some 100; Some 150]]
  /\ select t "total_recovered" = []
  /\ calculate_rates 7%nat h
     = (inl (KeyError "total_recovered"),
        <[7%nat := assign t "cfr" (SFloat [Fin (1 # 50); Fin (1 # 50)])]> h).
Proof.
  intros t h.
  assert (h !! 7%nat = Some t) as Hh by (vm_compute; reflexivity).
  split; [exact Hh|]. repeat (split; [reflexivity|]).
  exact (proj2 (proj2 (rates_missing_column 7%nat h t Hh))
           (Ints [Some 2; Some 3]) (Ints [Some 100; Some 150])
           eq_refl eq_refl eq_refl).
Defined.

(** ** The cells of [daily_change] *)

Lemma wrap64_small z : INT64_MIN <= z <= INT64_MAX -> wrap64 z = z.
Proof.
  unfold INT64_MIN, INT64_MAX, wrap64. intros H.
  rewrite Z.mod_small; lia.
Qed.

Lemma deltas_from_cells p r :
  Forall (fun z => 0 <= z <= INT64_MAX) (p :: r) ->
  map (fun a => Some (fillna_0 a))
      (zip_with (int_op Z.sub) (map Some r)
                (take (length (map Some r)) (Some p :: map Some r)))
  = map Some (deltas_from p r).
Proof.
  revert p. induction r as [|c r IH]; intros p H; [reflexivity|].
  inversion H as [|? ? Hp Hr]; subst. inversion Hr as [|? ? Hc _]; subst.
  cbn [map length take zip_with deltas_from int_op fillna_0].
  rewrite (IH c Hr). f_equal. f_equal. apply wrap64_small.
  unfold INT64_MIN, INT64_MAX in *. lia.
Qed.

Lemma daily_change_deltas zs :
  Forall (fun z => 0 <= z <= INT64_MAX) zs ->
  fillna0 (diff (Ints (map Some zs))) = Ints (map Some (deltas zs)).
Proof.
  intros H. destruct zs as [|z r]; [reflexivity|].
  unfold diff, fillna0, shift, deltas.
  cbn [map length take zip_with int_op fillna_0].
  now rewrite deltas_from_cells.
Qed.

Lemma last_cons (z : Z) r d : List.last (z :: r) d = List.last r z.
Proof.
  revert z d. induction r as [|c r IH]; intros z d; [reflexivity|].
  change (List.last (z :: c :: r) d) with (List.last (c :: r) d).
  now rewrite (IH c d), (IH c z).
Qed.

Lemma total_deltas_from p r : total (deltas_from p r) = List.last r p - p.
Proof.
  revert p. induction r as [|c r IH]; intros p; cbn [deltas_from total fold_right].
  - simpl. lia.
  - fold (total (deltas_from c r)). rewrite IH, last_cons. lia.
Qed.

Lemma deltas_from_lookup r : forall z i p c,
  (z :: r) !! i = Some p -> r !! i = Some c ->
  deltas_from z r !! i = Some (c - p).
Proof.
  induction r as [|c' r IH]; intros z i p c Hp Hc; [destruct i; discriminate|].
  destruct i as [|i].
  - simpl in *. congruence.
  - exact (IH c' i p c Hp Hc).
Qed.

(** X10.  On a table whose confirmed cases are counts within 64 bits,
    [daily_change] is 0 in the first row and, in every other row, the count
    of the row minus the count of the row before; over the whole table the
    changes add up to the last count minus the first. *)
Theorem daily_change_cells ln df (h : heap) t zs :
  h !! df = Some t ->
  counts t "total_confirmed_cases" zs ->
  Forall (fun z => z <= INT64_MAX) zs ->
  at_most_once t growth_columns ->
  exists t' ds,
    calculate_growth_metrics ln df h = (inr df, <[df := t']> h)
    /\ select t' "daily_change" = [SInt (map Some ds)]
    /\ length ds = length zs
    /\ (zs <> [] -> ds !! 0%nat = Some 0)
    /\ (forall i p c, zs !! i = Some p -> zs !! S i = Some c ->
          ds !! S i = Some (c - p))
    /\ total ds = List.last zs 0 - hd 0 zs.
Proof.
  intros Hh [Hc Hpos] Hmax Hm.
  assert (Forall (fun z => 0 <= z <= INT64_MAX) zs) as Hr.
  { rewrite List.Forall_forall in *. intros z Hz. split; auto. }
  exists (growth_table ln (Ints (map Some zs)) t), (deltas zs).
  split; [now apply growth_table_run|]. split.
  { assert (select (growth_table ln (Ints (map Some zs)) t) "daily_change"
            = [series_of (fillna0 (diff (Ints (map Some zs))))]) as H
      by exact (select_growth_table ln t (Ints (map Some zs)) "daily_change" Hm).
    now rewrite daily_change_deltas in H by exact Hr. }
  clear. destruct zs as [|z r].
  - repeat split; try reflexivity; try congruence. intros i p c H. discriminate H.
  - cbn [deltas hd]. split; [|split; [reflexivity|split]].
    + cbn [length]. f_equal. clear. revert z.
      induction r as [|c r IH]; intros z; [reflexivity|].
      cbn [deltas_from length]. now rewrite IH.
    + intros i p c Hp Hc. exact (deltas_from_lookup r z i p c Hp Hc).
    + cbn [total fold_right]. fold (total (deltas_from z r)).
      rewrite total_deltas_from, last_cons. lia.
Qed.

(** ** Rates and growth as numbers *)









(** * Fragments of [main] *)

Example projection_of_100 :
  projected_cases (Fin 100) 3 = [Fin 100; Fin 102; Fin (2601 # 25)].
Proof. reflexivity. Qed.

(** ** The date filter *)

















(** ** The projection *)











(** X17.  Scenario planning on a table whose daily confirmed cases are
    counts: the statement that fills the missing values finds none and
    leaves the table as it was, and the projection of the chosen horizon is
    returned.  Without that column the fragment stops with [KeyError], the
    table untouched. *)
Theorem scenario_planning_run df (h : heap) t projection_days :
  h !! df = Some t ->
  (forall zs, counts t "daily_confirmed_cases" zs ->
     scenario_planning df projection_days h
     = (inr (projected_cases (last_week_avg (Ints (map Some zs))) projection_days), h))
  /\ (select t "daily_confirmed_cases" = [] ->
      scenario_planning df projection_days h
      = (inl (KeyError "daily_confirmed_cases"), h)).
Proof.
  intros Hh. split.
  - intros zs [Hc _]. unfold scenario_planning.
    rewrite (py_read_then df _ _ h t (Ints (map Some zs)) Hh Hc).
    rewrite (py_assign_then df _ _ _ h t Hh).
    assert (fillna0 (Ints (map Some zs)) = Ints (map Some zs)) as ->.
    { cbn [fillna0]. now rewrite map_map. }
    cbn [series_of]. rewrite (assign_same_one t _ _ Hc), (insert_id h df t Hh).
    now rewrite (py_read_then df _ _ h t (Ints (map Some zs)) Hh Hc).
  - intros Hs. unfold scenario_planning.
    apply py_bind_raise. now apply (py_getitem_missing _ _ _ t).
Qed.

Lemma scenario_planning_run_witness :
  let t := [ ("date", SDate [Some 0; Some 1; Some 2]);
             ("daily_confirmed_cases", SInt [Some 90; Some 100; Some 110]) ] in
  let h : heap := {[ 7%nat := t ]} in
  h !! 7%nat = Some t
  /\ counts t "daily_confirmed_cases" [90; 100; 110]
  /\ scenario_planning 7%nat 3 h = (inr [Fin 100; Fin 102; Fin (2601 # 25)], h).
Proof.
  intros t h.
  assert (h !! 7%nat = Some t) as Hh by (vm_compute; reflexivity).
  assert (counts t "daily_confirmed_cases" [90; 100; 110]) as Hc by sample_counts.
  split; [exact Hh|]. split; [exact Hc|].
  exact (proj1 (scenario_planning_run 7%nat h t 3 Hh) [90; 100; 110] Hc).
Defined.

(** * The properties of the metric functions on a sample table *)

Lemma growth_metrics_idempotent_witness :
  let t := [ ("date", SDate [Some 0; Some 1; Some 2; Some 3]);
             ("total_confirmed_cases", SInt [Some 0; Some 0; Some 100; Some 150]) ] in
  let c := Ints [Some 0; Some 0; Some 100; Some 150] in
  let h : heap := {[ 7%nat := t ]} in
  h !! 7%nat = Some t
  /\ select t "total_confirmed_cases" = [series_of c]
  /\ at_most_once t growth_columns
  /\ exists h1,
       calculate_growth_metrics Sample.ln_1 7%nat h = (inr 7%nat, h1)
       /\ calculate_growth_metrics Sample.ln_1 7%nat h1 = (inr 7%nat, h1).
Proof.
  intros t c h.
  assert (h !! 7%nat = Some t) as Hh by (vm_compute; reflexivity).
  assert (select t "total_confirmed_cases" = [series_of c]) as Hc by reflexivity.
  assert (at_most_once t growth_columns) as Hm by sample_once.
  split; [exact Hh|]. split; [exact Hc|]. split; [exact Hm|].
  exact (growth_metrics_idempotent Sample.ln_1 7%nat h t c Hh Hc Hm).
Defined.

Lemma rates_idempotent_witness :
  let t := [ ("total_confirmed_cases", SInt [Some 0; Some 100; Some 150]);
             ("total_deaths", SInt [Some 0; Some 2; Some 3]);
             ("total_recovered", SInt [Some 0; Some 50; Some 70]) ] in
  let d := Ints [Some 0; Some 2; Some 3] in
  let c := Ints [Some 0; Some 100; Some 150] in
  let r := Ints [Some 0; Some 50; Some 70] in
  let h : heap := {[ 7%nat := t ]} in
  h !! 7%nat = Some t
  /\ select t "total_deaths" = [series_of d]
  /\ select t "total_confirmed_cases" = [series_of c]
  /\ select t "total_recovered" = [series_of r]
  /\ at_most_once t rate_columns
  /\ exists h1,
       calculate_rates 7%nat h = (inr 7%nat, h1)
       /\ calculate_rates 7%nat h1 = (inr 7%nat, h1).
Proof.
  intros t d c r h.
  assert (h !! 7%nat = Some t) as Hh by (vm_compute; reflexivity).
  assert (select t "total_deaths" = [series_of d]) as Hd by reflexivity.
  assert (select t "total_confirmed_cases" = [series_of c]) as Hc by reflexivity.
  assert (select t "total_recovered" = [series_of r]) as Hr by reflexivity.
  assert (at_most_once t rate_columns) as Hm by sample_once.
  split; [exact Hh|]. split; [exact Hd|]. split; [exact Hc|]. split; [exact Hr|].
  split; [exact Hm|].
  exact (rates_idempotent 7%nat h t d c r Hh Hd Hc Hr Hm).
Defined.

Lemma metrics_commute_witness :
  let t := [ ("total_confirmed_cases", SInt [Some 0; Some 100; Some 150]);
             ("total_deaths", SInt [Some 0; Some 2; Some 3]);
             ("total_recovered", SInt [Some 0; Some 50; Some 70]) ] in
  let d := Ints [Some 0; Some 2; Some 3] in
  let c := Ints [Some 0; Some 100; Some 150] in
  let r := Ints [Some 0; Some 50; Some 70] in
  let h : heap := {[ 7%nat := t ]} in
  h !! 7%nat = Some t
  /\ select t "total_deaths" = [series_of d]
  /\ select t "total_confirmed_cases" = [series_of c]
  /\ select t "total_recovered" = [series_of r]
  /\ at_most_once t (growth_columns ++ rate_columns)
  /\ exists ta tb,
       (calculate_growth_metrics Sample.ln_1 7%nat ≫= calculate_rates) h
       = (inr 7%nat, <[7%nat := ta]> h)
       /\ (calculate_rates 7%nat ≫= calculate_growth_metrics Sample.ln_1) h
          = (inr 7%nat, <[7%nat := tb]> h)
       /\ forall k, select ta k = select tb k.
Proof.
  intros t d c r h.
  assert (h !! 7%nat = Some t) as Hh by (vm_compute; reflexivity).
  assert (select t "total_deaths" = [series_of d]) as Hd by reflexivity.
  assert (select t "total_confirmed_cases" = [series_of c]) as Hc by reflexivity.
  assert (select t "total_recovered" = [series_of r]) as Hr by reflexivity.
  assert (at_most_once t (growth_columns ++ rate_columns)) as Hm by sample_once.
  split; [exact Hh|]. split; [exact Hd|]. split; [exact Hc|]. split; [exact Hr|].
  split; [exact Hm|].
  exact (metrics_commute Sample.ln_1 7%nat h t d c r Hh Hd Hc Hr Hm).
Defined.

Lemma daily_change_cells_witness :
  let t := [ ("date", SDate [Some 0; Some 1; Some 2; Some 3]);
             ("total_confirmed_cases", SInt [Some 5; Some 5; Some 100; Some 90]) ] in
  let zs := [5; 5; 100; 90] in
  let h : heap := {[ 7%nat := t ]} in
  h !! 7%nat = Some t
  /\ counts t "total_confirmed_cases" zs
  /\ Forall (fun z => z <= INT64_MAX) zs
  /\ at_most_once t growth_columns
  /\ exists t' ds,
       calculate_growth_metrics Sample.ln_1 7%nat h = (inr 7%nat, <[7%nat := t']> h)
       /\ select t' "daily_change" = [SInt (map Some ds)]
       /\ length ds = length zs
       /\ (zs <> [] -> ds !! 0%nat = Some 0)
       /\ (forall i p c, zs !! i = Some p -> zs !! S i = Some c ->
             ds !! S i = Some (c - p))
       /\ total ds = List.last zs 0 - hd 0 zs.
Proof.
  intros t zs h.
  assert (h !! 7%nat = Some t) as Hh by (vm_compute; reflexivity).
  assert (counts t "total_confirmed_cases" zs) as Hc by sample_counts.
  assert (Forall (fun z => z <= INT64_MAX) zs) as Hx
    by (repeat constructor; vm_compute; discriminate).
  assert (at_most_once t growth_columns) as Hm by sample_once.
  split; [exact Hh|]. split; [exact Hc|]. split; [exact Hx|]. split; [exact Hm|].
  exact (daily_change_cells Sample.ln_1 7%nat h t zs Hh Hc Hx Hm).
Defined.


